(** * schemafire: the Model of @schemafire/firestore

    A shallow embedding of [src/@schemafire/firestore/src/model.ts]: the
    action log of a model, its mutation methods, the transaction that
    replays the log, the mirror writer and the run lifecycle.

    JavaScript objects are association lists in insertion order, the
    Firestore database is a finite map from document references to field
    maps, a transaction is the list of operations issued against its
    handle, and [throw] is an explicit outcome. *)

From Stdlib Require Import ZArith String Ascii List Bool Lia.
From stdpp Require Import base option gmap strings list.

Local Open Scope list_scope.
Local Set Warnings "-register-all".

(** ** Values and objects *)

(** The values a field can hold. [VFieldDelete] is
    [admin.firestore.FieldValue.delete()], [VServerTimestamp] the server
    timestamp sentinel. *)
Inductive value : Type :=
| VUndefined
| VNull
| VBool (b : bool)
| VNum (n : Z)
| VStr (s : string)
| VFieldDelete
| VServerTimestamp
| VObj (fields : list (string * value)).

(** A plain object: own enumerable string keys in insertion order. *)
Definition Obj : Type := list (string * value).

(** JavaScript truthiness, as used by [!x] and [x ? a : b]. *)
Definition truthy (v : value) : bool :=
  match v with
  | VUndefined | VNull => false
  | VBool b => b
  | VNum n => negb (Z.eqb n 0)
  | VStr s => negb (String.eqb s "")
  | VFieldDelete | VServerTimestamp | VObj _ => true
  end.

Module JS.

(** Own-key lookup in a record of any value type. *)
Fixpoint lookup {A : Type} (o : list (string * A)) (k : string) : option A :=
  match o with
  | [] => None
  | (k', v) :: o' => if String.eqb k' k then Some v else lookup o' k
  end.

(** [key in o] for own keys. *)
Definition has {A : Type} (o : list (string * A)) (k : string) : bool :=
  match lookup o k with Some _ => true | None => false end.

(** [o[k]]: [undefined] when the key is absent. *)
Definition get (o : Obj) (k : string) : value :=
  match lookup o k with Some v => v | None => VUndefined end.

(** [o[k] = v]: an existing key keeps its place, a new key goes last. *)
Fixpoint set {A : Type} (o : list (string * A)) (k : string) (v : A)
  : list (string * A) :=
  match o with
  | [] => [(k, v)]
  | (k', v') :: o' =>
      if String.eqb k' k then (k', v) :: o' else (k', v') :: set o' k v
  end.

(** [delete o[k]]. *)
Fixpoint remove {A : Type} (o : list (string * A)) (k : string)
  : list (string * A) :=
  match o with
  | [] => []
  | (k', v') :: o' =>
      if String.eqb k' k then remove o' k else (k', v') :: remove o' k
  end.

(** [{ ...a, ...b }]. *)
Definition spread {A : Type} (a b : list (string * A)) : list (string * A) :=
  fold_left (fun acc kv => set acc (fst kv) (snd kv)) b a.

(** lodash [isEmpty] on an object or an array. *)
Definition isEmpty {A : Type} (l : list A) : bool :=
  match l with [] => true | _ => false end.

(** [Object.keys]. *)
Definition keys {A : Type} (o : list (string * A)) : list string := map fst o.

(** lodash/fp [pick(keys, o)] for top-level keys. *)
Definition pick {A : Type} (ks : list string) (o : list (string * A))
  : list (string * A) :=
  fold_left
    (fun acc k => match lookup o k with Some v => set acc k v | None => acc end)
    ks [].

(** [s.includes('.')]. *)
Fixpoint includesDot (s : string) : bool :=
  match s with
  | EmptyString => false
  | String c s' => if Ascii.eqb c "."%char then true else includesDot s'
  end.

(** Truthiness of a string and of an optional string. *)
Definition nonEmpty (s : string) : bool := negb (String.eqb s "").

End JS.

(** ** Data model *)

(** A document reference: collection path and document id. *)
Abbreviation DocRef := (string * string)%type.

(** The database: the fields of every document that exists. *)
Abbreviation Db := (gmap (string * string) (list (string * value))).

(** [FirebaseFirestore.DocumentSnapshot]. *)
Record Snapshot : Type := mkSnapshot
  { snapRef : DocRef; snapExists : bool; snapData : option Obj }.

(** [FirestoreRecord]: what a read hands back to the model. *)
Record FirestoreRecord : Type := mkRecord
  { recDoc : DocRef; recSnap : option Snapshot; recData : option Obj }.

Inductive Error : Type :=
| InvariantError (message : string)
| ProtectedFieldError (key : string)
| SchemaFireValidationError (failing : list string)
| TransactionError (msg : string)
| HostError.

Inductive LastRunStatus : Type :=
| Found | Created | ForceCreated | Updated | Deleted | NotFound.

(** [RunConfig] and [SchemaConfig]: every option may be left out. *)
Record RunConfig : Type := mkConfig
  { maxAttempts : option nat;
    forceGet : option bool;
    mirror : option bool;
    autoValidate : option bool }.

Definition emptyConfig : RunConfig := mkConfig None None None None.

(** [{ ...base, ...over }] on configurations. *)
Definition spreadConfig (base over : RunConfig) : RunConfig :=
  {| maxAttempts := from_option Some (maxAttempts base) (maxAttempts over);
     forceGet := from_option Some (forceGet base) (forceGet over);
     mirror := from_option Some (mirror base) (mirror over);
     autoValidate := from_option Some (autoValidate base) (autoValidate over) |}.

(** [SchemaCacheRules]: the mirror rule of a schema. *)
Record MirrorRule : Type := mkMirror
  { mrCollection : string;
    mrName : string;
    mrIdField : option string;
    mrFields : list string }.

(** The parts of [ISchema] the model reads. The io-ts codec is its list
    of props, each with the predicate its type decodes. *)
Record Schema : Type := mkSchema
  { sRef : string;
    sVersion : Z;
    sDefaultData : Obj;
    sConfig : RunConfig;
    sMirror : option MirrorRule;
    sCodecProps : list (string * (value -> bool)) }.

(** A query clause: field, operator, value. *)
Abbreviation Clause := (string * string * value)%type.

(** [ModelAction]. A callback is given the materialised data and answers
    with the actions it queues. *)
Inductive Action : Type :=
| Create (data : Obj)
| FindOrCreate (data : Obj)
| Update (data : Obj)
| Delete
| Find
| Query (clauses : list Clause)
| Callback (callback : Obj -> list Action).

(** [ModelActions]: which kinds of action a transaction ran. *)
Record ModelActions : Type := mkRan
  { ranGet : bool;
    ranCreate : bool;
    ranForceCreate : bool;
    ranUpdate : bool;
    ranDelete : bool;
    ranQuery : bool }.

Definition noActionsRun : ModelActions :=
  mkRan false false false false false false.

(** [TransactionState]. *)
Record TransactionState : Type := mkState
  { stRawData : Obj;
    stActions : list Action;
    stActionsRun : ModelActions;
    stErrors : list Error;
    stLastRunStatus : option LastRunStatus;
    stSyncData : option FirestoreRecord }.

(** The fields of the [Model] class. [dataProxy] is a view of [rawData]
    and is not stored. *)
Record Model : Type := mkModel
  { actions : list Action;
    rawData : Obj;
    currentRunConfig : RunConfig;
    errors : list Error;
    lastRunStatus : option LastRunStatus;
    existsViaCreation : bool;
    actionsRun : ModelActions;
    baseData : Obj;
    hasRunSuccessfully : bool;
    doc : DocRef;
    modelId : string;
    snap : option Snapshot;
    schema : Schema }.

(** ** The host: transaction handle, log and database *)

(** Calls on the transaction handle, in the order they are issued. *)
Inductive TxOp : Type :=
| TxGet (d : DocRef)
| TxQuery (collection : string) (clauses : list Clause)
| TxSet (d : DocRef) (data : Obj) (merge : bool)
| TxCreate (d : DocRef) (data : Obj)
| TxUpdate (d : DocRef) (data : Obj)
| TxDelete (d : DocRef).

(** What [logError] was called with. *)
Inductive LogMsg : Type :=
| LogNoDataToProcess
| LogMirrorNoId (id : string) (data : Obj)
| LogNoDataPassed
| LogPushFailed (e : Error).

(** Traffic with the database outside and inside transactions. *)
Inductive IOEvent : Type :=
| IOTransaction (ops : list TxOp) (committed : bool)
| IORead (d : DocRef).

Record Host : Type := mkHost
  { db : Db; io : list IOEvent; logs : list LogMsg }.

Inductive Outcome (A : Type) : Type :=
| Ok (a : A)
| Throw (e : Error).
Arguments Ok {A} a.
Arguments Throw {A} e.

(** The state of one transaction attempt: operations issued so far and
    messages logged so far. *)
Record TxCtx : Type := mkCtx { txOps : list TxOp; txLogs : list LogMsg }.

Definition Tx (A : Type) : Type := TxCtx -> TxCtx * Outcome A.

Definition ret {A} (a : A) : Tx A := fun c => (c, Ok a).
Definition throw {A} (e : Error) : Tx A := fun c => (c, Throw e).
Definition bind {A B} (m : Tx A) (k : A -> Tx B) : Tx B :=
  fun c => match m c with
           | (c', Ok a) => k a c'
           | (c', Throw e) => (c', Throw e)
           end.
Definition issue (op : TxOp) : Tx unit :=
  fun c => (mkCtx (txOps c ++ [op]) (txLogs c), Ok tt).
Definition logError (msg : LogMsg) : Tx unit :=
  fun c => (mkCtx (txOps c) (txLogs c ++ [msg]), Ok tt).

Notation "'let*' x ':=' m 'in' k" := (bind m (fun x => k))
  (at level 10, x pattern, m at level 100, k at level 200).

(** ** Collaborators of [model.ts] *)

(** Helpers imported by [model.ts] whose bodies neither the source file
    nor the specification fixes. The model takes them as parameters:
    [isBaseProp] of [./utils], [serverUpdateTimestamp] of [./utils],
    [removeUndefined] of [@schemafire/core], the resolution of a query to
    its first matching document, [createDefaultBase] of [./base], and the
    id the host gives to a document created without one. *)
Record Collaborators : Type := mkCollaborators
  { isBaseProp : string -> bool;
    serverUpdateTimestamp : Obj -> Obj;
    removeUndefined : Obj -> Obj;
    queryFirst : Db -> string -> list Clause -> option (DocRef * Obj);
    createDefaultBase : Z -> Obj;
    autoId : string }.

(** Modelled from the spec: [actionsContainDelete] of [./utils], which,
    like the other predicates on the log, is not in the source tree:
    "Delete present". *)
Definition actionsContainDelete (l : list Action) : bool :=
  existsb (fun a => match a with Delete => true | _ => false end) l.

(** Modelled from the spec: [actionsContainCallback] of [./utils]:
    "Callback present". *)
Definition actionsContainCallback (l : list Action) : bool :=
  existsb (fun a => match a with Callback _ => true | _ => false end) l.

(** Modelled from the spec: [actionsContainFind] of [./utils]:
    "Find present". *)
Definition actionsContainFind (l : list Action) : bool :=
  existsb (fun a => match a with Find => true | _ => false end) l.

(** Modelled from the spec: [actionsContainFindOrCreate] of [./utils]:
    "FindOrCreate present". *)
Definition actionsContainFindOrCreate (l : list Action) : bool :=
  existsb (fun a => match a with FindOrCreate _ => true | _ => false end) l.

(** Modelled from the spec: [actionsContainCreate] of [./utils]:
    "Create present". *)
Definition actionsContainCreate (l : list Action) : bool :=
  existsb (fun a => match a with Create _ => true | _ => false end) l.

(** Modelled from the spec: [actionsContainUpdate] of [./utils]: an
    Update action is in the log. *)
Definition actionsContainUpdate (l : list Action) : bool :=
  existsb (fun a => match a with Update _ => true | _ => false end) l.

(** Modelled from the spec: [findQueryAction] of [./utils]: "Query
    present", with the queued clauses. *)
Fixpoint findQueryAction (l : list Action) : option (list Clause) :=
  match l with
  | [] => None
  | Query clauses :: _ => Some clauses
  | _ :: l' => findQueryAction l'
  end.

(** Modelled from the spec: [getIdFieldFromSchema] of [./model.utils],
    which is not in the source tree: the "designated id-field" of the
    schema's mirror rule. *)
Definition getIdFieldFromSchema (s : Schema) : option string :=
  match sMirror s with
  | Some rule => mrIdField rule
  | None => None
  end.

(** Modelled from the spec: [snapshotExists] of [./model.utils], which is
    not in the source tree: the snapshot decides when there is one, and
    [existsViaCreation] "is used to answer exists before any read
    happens". *)
Definition snapshotExists (s : option Snapshot) (viaCreation : bool) : bool :=
  match s with
  | Some sn => snapExists sn
  | None => viaCreation
  end.

(** Modelled from the spec: [createTransactionState] of [./model.utils],
    which is not in the source tree: a fresh state per attempt, whose
    [actions] hold only what callbacks add during the attempt. *)
Definition createTransactionState (raw : Obj) (_ : list Action)
  : TransactionState :=
  mkState raw [] noActionsRun [] None None.

(** A field value that is the field-delete marker. *)
Definition isDeleteMarker (v : value) : bool :=
  match v with VFieldDelete => true | _ => false end.

(** Modelled from the spec: one step of the fold of [buildUpdatedData]:
    an update lays its payload over what was folded so far, "later
    overwrites earlier for the same field"; a creation lays the raw data
    and then its payload over it; any other action adds nothing. *)
Definition foldAction (raw : Obj) (acc : Obj) (a : Action) : Obj :=
  match a with
  | Update d => JS.spread acc d
  | Create d | FindOrCreate d => JS.spread (JS.spread acc raw) d
  | _ => acc
  end.

(** Modelled from the spec: [buildUpdatedData] of [./model.utils], which
    is not in the source tree: "the result of folding all Update/Create
    actions over rawData". The fold starts from the empty object, so
    that a log without Update or Create actions folds to the empty data
    of step 9. With [withoutDeletes] the fields that hold a delete marker
    are suppressed. *)
Definition buildUpdatedData (withoutDeletes : bool) (raw : Obj)
  (l : list Action) : Obj :=
  let folded := fold_left (foldAction raw) l [] in
  if withoutDeletes
  then List.filter (fun kv => negb (isDeleteMarker (snd kv))) folded
  else folded.

(** Modelled from the spec: [buildMirrorData] of [./model.utils], which
    is not in the source tree: it "filters the outgoing payload down to
    the mirror's selected fields". *)
Definition buildMirrorData (allUpdates : Obj) (fields : list string) : Obj :=
  JS.pick fields allUpdates.

(** Modelled from the spec: [omitBaseFields] of [./base], which is not in
    the source tree: the data without the protected base fields. *)
Definition omitBaseFields (X : Collaborators) (o : Obj) : Obj :=
  List.filter (fun kv => negb (isBaseProp X (fst kv))) o.

(** ** Transaction step functions *)

Definition setStateRead (st : TransactionState) (raw : Obj)
  (status : LastRunStatus) (sync : option FirestoreRecord) (ran : ModelActions)
  : TransactionState :=
  mkState raw (stActions st) ran (stErrors st) (Some status) sync.

Definition isSome {A : Type} (o : option A) : bool :=
  match o with Some _ => true | None => false end.

(** Modelled from the spec: [getTransaction] of [./model.utils], which is
    not in the source tree: a read of the document through the
    transaction handle; the new state carries [syncData] (document,
    snapshot and, unless [noData], the data read), the status found or
    not-found, and the data read as its raw data. *)
Definition getTransaction (d : Db) (ref : DocRef) (st : TransactionState)
  (noData : bool) : Tx TransactionState :=
  let* _ := issue (TxGet ref) in
  let read := d !! ref in
  let sn := mkSnapshot ref (isSome read) read in
  let data := if noData then None else read in
  let ran := stActionsRun st in
  ret (setStateRead st
         (match data with Some o => o | None => stRawData st end)
         (if isSome read then Found else NotFound)
         (Some (mkRecord ref (Some sn) data))
         (mkRan true (ranCreate ran) (ranForceCreate ran) (ranUpdate ran)
            (ranDelete ran) (ranQuery ran))).

(** Modelled from the spec: [queryTransaction] of [./model.utils], which
    is not in the source tree: the query is resolved against the
    collection, and the new state reflects "the first matching document
    (or not-found)". *)
Definition queryTransaction (X : Collaborators) (d : Db) (collection : string)
  (clauses : list Clause) (st : TransactionState) : Tx TransactionState :=
  let* _ := issue (TxQuery collection clauses) in
  let ran := stActionsRun st in
  let ran' := mkRan (ranGet ran) (ranCreate ran) (ranForceCreate ran)
                (ranUpdate ran) (ranDelete ran) true in
  match queryFirst X d collection clauses with
  | Some (ref, o) =>
      ret (setStateRead st o Found
             (Some (mkRecord ref (Some (mkSnapshot ref true (Some o))) (Some o)))
             ran')
  | None => ret (setStateRead st (stRawData st) NotFound (stSyncData st) ran')
  end.

(** Modelled from the spec: [createTransaction] of [./model.utils], which
    is not in the source tree: a create of the document with the data,
    with "overwrite semantics" when forced; the status is created or
    force-created. *)
Definition createTransaction (data : Obj) (force : bool) (ref : DocRef)
  (st : TransactionState) : Tx TransactionState :=
  let* _ := issue (if force then TxSet ref data false else TxCreate ref data) in
  let ran := stActionsRun st in
  ret (mkState (stRawData st) (stActions st)
         (mkRan (ranGet ran) (if force then ranCreate ran else true)
            (if force then true else ranForceCreate ran) (ranUpdate ran)
            (ranDelete ran) (ranQuery ran))
         (stErrors st)
         (Some (if force then ForceCreated else Created))
         (stSyncData st)).

(** Modelled from the spec: [updateTransaction] of [./model.utils], which
    is not in the source tree: "an update-merge write with data"; the
    status is updated. *)
Definition updateTransaction (data : Obj) (ref : DocRef)
  (st : TransactionState) : Tx TransactionState :=
  let* _ := issue (TxSet ref data true) in
  let ran := stActionsRun st in
  ret (mkState (stRawData st) (stActions st)
         (mkRan (ranGet ran) (ranCreate ran) (ranForceCreate ran) true
            (ranDelete ran) (ranQuery ran))
         (stErrors st) (Some Updated) (stSyncData st)).

(** Modelled from the spec: [deleteTransaction] of [./model.utils], which
    is not in the source tree: the delete of the document; the status is
    deleted. *)
Definition deleteTransaction (st : TransactionState) (ref : DocRef)
  : Tx TransactionState :=
  let* _ := issue (TxDelete ref) in
  let ran := stActionsRun st in
  ret (mkState (stRawData st) (stActions st)
         (mkRan (ranGet ran) (ranCreate ran) (ranForceCreate ran)
            (ranUpdate ran) true (ranQuery ran))
         (stErrors st) (Some Deleted) (stSyncData st)).

(** Modelled from the spec: the data a callback sees, "base fields
    merged with schema defaults unless a successful run has already
    occurred": the base data stand in for the base fields until then. *)
Definition materialise (m : Model) (raw : Obj) : Obj :=
  if hasRunSuccessfully m then raw else JS.spread raw (baseData m).

(** Modelled from the spec: [runCallbacks] of [./model.utils], which is
    not in the source tree: every queued callback is invoked in insertion
    order with the materialised data, and the actions it queues go onto
    the state's own list. The source discards the return value, so the
    state object is updated in place. *)
Definition runCallbacks (st : TransactionState) (ctx : Model)
  : TransactionState :=
  fold_left
    (fun s a =>
       match a with
       | Callback cb =>
           mkState (stRawData s)
             (stActions s ++ cb (materialise ctx (stRawData s)))
             (stActionsRun s) (stErrors s) (stLastRunStatus s) (stSyncData s)
       | _ => s
       end)
    (actions ctx) st.

(** ** The Model class *)

Definition setActions (a : list Action) (m : Model) : Model :=
  mkModel a (rawData m) (currentRunConfig m) (errors m) (lastRunStatus m)
    (existsViaCreation m) (actionsRun m) (baseData m) (hasRunSuccessfully m)
    (doc m) (modelId m) (snap m) (schema m).

Definition setCurrentRunConfig (c : RunConfig) (m : Model) : Model :=
  mkModel (actions m) (rawData m) c (errors m) (lastRunStatus m)
    (existsViaCreation m) (actionsRun m) (baseData m) (hasRunSuccessfully m)
    (doc m) (modelId m) (snap m) (schema m).

Definition setRunResult (e : list Error) (s : option LastRunStatus)
  (ran : ModelActions) (m : Model) : Model :=
  mkModel (actions m) (rawData m) (currentRunConfig m) e s
    (existsViaCreation m) ran (baseData m) (hasRunSuccessfully m)
    (doc m) (modelId m) (snap m) (schema m).

Definition setExistsViaCreation (b : bool) (m : Model) : Model :=
  mkModel (actions m) (rawData m) (currentRunConfig m) (errors m)
    (lastRunStatus m) b (actionsRun m) (baseData m) (hasRunSuccessfully m)
    (doc m) (modelId m) (snap m) (schema m).

Definition setHasRunSuccessfully (b : bool) (m : Model) : Model :=
  mkModel (actions m) (rawData m) (currentRunConfig m) (errors m)
    (lastRunStatus m) (existsViaCreation m) (actionsRun m) (baseData m) b
    (doc m) (modelId m) (snap m) (schema m).

Definition setDocument (ref : DocRef) (s : option Snapshot) (m : Model)
  : Model :=
  mkModel (actions m) (rawData m) (currentRunConfig m) (errors m)
    (lastRunStatus m) (existsViaCreation m) (actionsRun m) (baseData m)
    (hasRunSuccessfully m) ref (snd ref) s (schema m).

(** [resetRawData]: the new data become the raw data and the proxy is
    rebuilt over them. *)
Definition resetRawData (newData : Obj) (m : Model) : Model :=
  mkModel (actions m) newData (currentRunConfig m) (errors m) (lastRunStatus m)
    (existsViaCreation m) (actionsRun m) (baseData m) (hasRunSuccessfully m)
    (doc m) (modelId m) (snap m) (schema m).

(** The getter [exists]. *)
Definition modelExists (m : Model) : bool :=
  snapshotExists (snap m) (existsViaCreation m).

(** Modelled from the spec: the traps of the data proxy of [./proxy],
    which is not in the source tree: an assignment through [this.data]
    "immediately writes the value into the optimistic local view", a
    [delete] through it removes the field "from the local optimistic view
    immediately" and is "not queued as a server action". The proxy's
    target is the raw data object itself. This is the [set] trap. *)
Definition proxySet (k : string) (v : value) (m : Model) : Model :=
  resetRawData (JS.set (rawData m) k v) m.

(** Modelled from the spec: the [deleteProperty] trap of the data proxy:
    the field leaves the local view and nothing is queued. *)
Definition proxyDeleteProperty (k : string) (m : Model) : Model :=
  resetRawData (JS.remove (rawData m) k) m.

(** [canMirror]. *)
Definition canMirror (m : Model) : bool :=
  isSome (sMirror (schema m)) && JS.nonEmpty (modelId m)
  && match mirror (currentRunConfig m) with Some true => true | _ => false end.

(** The second argument of [mirrorTransaction]: the updates, or the
    string ['delete']. *)
Inductive MirrorUpdates : Type :=
| MirrorData (allUpdates : Obj)
| MirrorDelete.

(** [mirrorId] is typed [string]; the host takes only a string as a
    document path and rejects any other value. *)
Definition mirrorDoc (collection : string) (mirrorId : value) : Tx DocRef :=
  match mirrorId with
  | VStr s => ret (collection, s)
  | _ => throw HostError
  end.

(** [idField ? this.rawData[idField] : this.id]. *)
Definition mirrorIdOf (m : Model) (rule : MirrorRule) : value :=
  match mrIdField rule with
  | Some idField =>
      if JS.nonEmpty idField then JS.get (rawData m) idField
      else VStr (modelId m)
  | None => VStr (modelId m)
  end.

(** [mirrorTransaction]. *)
Definition mirrorTransaction (X : Collaborators) (m : Model)
  (allUpdates : MirrorUpdates) : Tx unit :=
  match (if canMirror m then sMirror (schema m) else None) with
  | None => ret tt
  | Some rule =>
      let key := mrName rule in
      let mirrorId := mirrorIdOf m rule in
      if negb (truthy mirrorId)
      then logError (LogMirrorNoId (modelId m) (rawData m))
      else
        let* ref := mirrorDoc (mrCollection rule) mirrorId in
        match allUpdates with
        | MirrorDelete =>
            issue (TxSet ref (serverUpdateTimestamp X [(key, VFieldDelete)]) true)
        | MirrorData updates =>
            let data := buildMirrorData updates (mrFields rule) in
            if JS.isEmpty data
            then logError LogNoDataPassed
            else
              let payload :=
                serverUpdateTimestamp X [(key, VObj (removeUndefined X data))] in
              let* _ := (if JS.includesDot key
                         then issue (TxUpdate ref payload)
                         else ret tt) in
              issue (TxSet ref payload true)
        end
  end.

(** [removeAllDataExceptMirrorIdField]. *)
Definition removeAllDataExceptMirrorIdField (m : Model) : Obj :=
  match getIdFieldFromSchema (schema m) with
  | Some idField =>
      if JS.nonEmpty idField then [(idField, JS.get (rawData m) idField)] else []
  | None => []
  end.

(** Decoding with an io-ts interface codec: the props whose value does
    not decode. *)
Definition decode (props : list (string * (value -> bool))) (data : Obj)
  : list string :=
  map fst (List.filter (fun p => negb (snd p (JS.get data (fst p)))) props).

(** [report.fold(SchemaFireValidationError.create, () => undefined)]. *)
Definition foldReport (failing : list string) : option Error :=
  match failing with
  | [] => None
  | _ => Some (SchemaFireValidationError failing)
  end.

(** [validate]. *)
Definition validate (X : Collaborators) (m : Model) : option Error :=
  let data := omitBaseFields X (rawData m) in
  let props := sCodecProps (schema m) in
  let report := decode props data in
  let isCreateAction :=
    actionsContainCreate (actions m) || actionsContainFindOrCreate (actions m) in
  foldReport
    (if isCreateAction then report
     else if actionsContainUpdate (actions m) then
       let updatedData := buildUpdatedData false (rawData m) (actions m) in
       let updatedKeys := JS.keys updatedData in
       decode (JS.pick updatedKeys props) (JS.pick updatedKeys data)
     else report).

(** [throwIfInvalid]. *)
Definition throwIfInvalid (X : Collaborators) (m : Model) : Tx unit :=
  match autoValidate (currentRunConfig m) with
  | Some true =>
      match validate X m with
      | Some error => throw error
      | None => ret tt
      end
  | _ => ret tt
  end.

Definition optTrue (o : option bool) : bool :=
  match o with Some true => true | _ => false end.

(** The function [buildTransaction] hands to [runTransaction]: one
    transaction attempt over the database [d]. *)
Definition attempt (X : Collaborators) (alwaysGet : option bool) (m : Model)
  (d : Db) : Tx TransactionState :=
  let state := createTransactionState (rawData m) (actions m) in
  if actionsContainDelete (actions m) then
    let* state :=
      (match getIdFieldFromSchema (schema m) with
       | Some idField =>
           if JS.nonEmpty idField && negb (truthy (JS.get (rawData m) idField))
           then getTransaction d (doc m) state false
           else ret state
       | None => ret state
       end) in
    let* _ := mirrorTransaction X m MirrorDelete in
    deleteTransaction state (doc m)
  else
    let* state :=
      (match findQueryAction (actions m) with
       | Some clauses => queryTransaction X d (sRef (schema m)) clauses state
       | None => ret state
       end) in
    let* state :=
      (if actionsContainCallback (actions m)
       then let* state := getTransaction d (doc m) state false in
            ret (runCallbacks state m)
       else ret state) in
    let allActions := actions m ++ stActions state in
    let data := buildUpdatedData false (stRawData state) allActions in
    let dataWithoutDeletes := buildUpdatedData true (stRawData state) allActions in
    let* state :=
      (if actionsContainFind (actions m)
       then getTransaction d (doc m) state false
       else ret state) in
    let afterFindOrCreate (state : TransactionState) : Tx TransactionState :=
      if actionsContainCreate (actions m) then
        let* _ := throwIfInvalid X m in
        let* state := createTransaction dataWithoutDeletes true (doc m) state in
        let* _ := mirrorTransaction X m (MirrorData dataWithoutDeletes) in
        ret state
      else
        let emptyData := JS.isEmpty data in
        let* state :=
          (if optTrue alwaysGet
           then getTransaction d (doc m) state (negb emptyData)
           else ret state) in
        if emptyData then ret state
        else
          let* _ := throwIfInvalid X m in
          let* state := updateTransaction data (doc m) state in
          let* _ := mirrorTransaction X m (MirrorData data) in
          ret state in
    if actionsContainFindOrCreate (actions m) then
      let* state := getTransaction d (doc m) state false in
      if negb (snapshotExists
                 (match stSyncData state with
                  | Some r => recSnap r
                  | None => None
                  end)
                 (existsViaCreation m))
      then
        let* _ := throwIfInvalid X m in
        let* state := createTransaction dataWithoutDeletes false (doc m) state in
        let* _ := mirrorTransaction X m (MirrorData dataWithoutDeletes) in
        ret state
      else afterFindOrCreate state
    else afterFindOrCreate state.

(** ** The host transaction *)

(** A merge of new fields into the stored ones: a field that holds the
    delete marker is removed, any other is set. *)
Definition mergeFields (old new : Obj) : Obj :=
  fold_left
    (fun acc kv =>
       if isDeleteMarker (snd kv) then JS.remove acc (fst kv)
       else JS.set acc (fst kv) (snd kv))
    new old.

(** Modelled from the spec: the host transaction API, which is outside
    the source tree: the handle's [get], [set] with or without merge,
    [create], [update] and [delete]. A create of a document that exists
    and an update of one that does not make the host reject the
    transaction. *)
Definition applyWrite (d : Db) (op : TxOp) : option Db :=
  match op with
  | TxGet _ | TxQuery _ _ => Some d
  | TxSet ref data false => Some (<[ref := data]> d)
  | TxSet ref data true =>
      Some (<[ref := mergeFields (default [] (d !! ref)) data]> d)
  | TxCreate ref data =>
      match d !! ref with
      | Some _ => None
      | None => Some (<[ref := data]> d)
      end
  | TxUpdate ref data =>
      match d !! ref with
      | Some old => Some (<[ref := mergeFields old data]> d)
      | None => None
      end
  | TxDelete ref => Some (delete ref d)
  end.

(** Modelled from the spec: the writes of a transaction take effect
    together, in the order they were issued, or not at all. *)
Fixpoint commit (d : Db) (ops : list TxOp) : option Db :=
  match ops with
  | [] => Some d
  | op :: ops' =>
      match applyWrite d op with
      | Some d' => commit d' ops'
      | None => None
      end
  end.

(** Modelled from the spec: [db.runTransaction(attempt, { maxAttempts })]
    of the host, with a single client: the attempt runs once over the
    current database; its writes are applied when it returns and are
    discarded when it throws. *)
Definition runTransaction (f : Db -> Tx TransactionState) (h : Host)
  : Host * Outcome TransactionState :=
  match f (db h) (mkCtx [] []) with
  | (c, Ok st) =>
      match commit (db h) (txOps c) with
      | Some d' =>
          (mkHost d' (io h ++ [IOTransaction (txOps c) true])
             (logs h ++ txLogs c), Ok st)
      | None =>
          (mkHost (db h) (io h ++ [IOTransaction (txOps c) false])
             (logs h ++ txLogs c), Throw HostError)
      end
  | (c, Throw e) =>
      (mkHost (db h) (io h ++ [IOTransaction (txOps c) false])
         (logs h ++ txLogs c), Throw e)
  end.

Definition hostLog (msg : LogMsg) (h : Host) : Host :=
  mkHost (db h) (io h) (logs h ++ [msg]).

(** [buildTransaction]: [None] is the [undefined] of the early return. *)
Definition buildTransaction (X : Collaborators) (attempts : option nat)
  (alwaysGet : option bool) (m : Model) (h : Host)
  : Host * Outcome (option TransactionState) :=
  if JS.isEmpty (actions m) && negb (optTrue alwaysGet)
  then (hostLog LogNoDataToProcess h, Ok None)
  else
    match runTransaction (attempt X alwaysGet m) h with
    | (h', Ok st) => (h', Ok (Some st))
    | (h', Throw e) => (h', Throw e)
    end.

(** [syncData]. *)
Definition syncData (r : FirestoreRecord) (m : Model) : Model :=
  setDocument (recDoc r) (recSnap r)
    (resetRawData (match recData r with Some o => o | None => rawData m end) m).

(** Modelled from the spec: [getRecord] of [./utils], which is not in the
    source tree: "an additional unconditional read" of the document
    outside any transaction. *)
Definition getRecord (ref : DocRef) (h : Host) : Host * FirestoreRecord :=
  let read := db h !! ref in
  (mkHost (db h) (io h ++ [IORead ref]) (logs h),
   mkRecord ref (Some (mkSnapshot ref (isSome read) read)) read).

(** [getSnap]. *)
Definition getSnap (m : Model) (h : Host) : Host * Model :=
  let (h', r) := getRecord (doc m) h in (h', syncData r m).

(** [setCurrentConfig]: without an argument the configuration is [{}]. *)
Definition setCurrentConfig (config : option RunConfig) (m : Model) : Model :=
  setCurrentRunConfig
    (spreadConfig (sConfig (schema m))
       (match config with Some c => c | None => emptyConfig end)) m.

(** [manageLastRunStatus]. *)
Definition manageLastRunStatus (m : Model) : Model :=
  match lastRunStatus m with
  | None => m
  | Some s =>
      setExistsViaCreation
        (match s with
         | Updated | Created | ForceCreated => true
         | _ => false
         end) m
  end.

(** [forceGetIfNeeded]. *)
Definition forceGetIfNeeded (config : RunConfig) (m : Model) (h : Host)
  : Host * Model :=
  if optTrue (forceGet config)
     && (ranCreate (actionsRun m) || ranForceCreate (actionsRun m))
  then getSnap m h
  else (h, m).

(** [updateModelWithTransactionState]. *)
Definition updateModelWithTransactionState (st : TransactionState) (m : Model)
  : Model :=
  let m1 := setRunResult (stErrors st) (stLastRunStatus st) (stActionsRun st) m in
  let m2 := match stSyncData st with
            | Some r => syncData r m1
            | None => m1
            end in
  if ranDelete (stActionsRun st) then resetRawData [] m2 else m2.

(** The [try] block of [run] together with its [catch]. *)
Definition runTry (X : Collaborators) (config : RunConfig) (m : Model)
  (h : Host) : Host * Model * Outcome unit :=
  match buildTransaction X (maxAttempts config) (forceGet config) m h with
  | (h1, Throw e) => (hostLog (LogPushFailed e) h1, m, Throw e)
  | (h1, Ok None) => (h1, m, Ok tt)
  | (h1, Ok (Some state)) =>
      let m1 := manageLastRunStatus (updateModelWithTransactionState state m) in
      match errors m1 with
      | e :: _ => (hostLog (LogPushFailed e) h1, m1, Throw e)
      | [] =>
          let (h2, m2) := forceGetIfNeeded config m1 h1 in
          (h2, setActions [] (setHasRunSuccessfully true m2), Ok tt)
      end
  end.

(** The [finally] block of [run]. *)
Definition runFinally (m : Model) : Model :=
  setRunResult [] None noActionsRun (setCurrentConfig None m).

(** [run]: the model after the call, and whether the promise resolves
    (with the model itself) or rejects. *)
Definition run (X : Collaborators) (config : RunConfig) (m : Model) (h : Host)
  : Host * Model * Outcome unit :=
  let '(h', m', out) := runTry X config (setCurrentConfig (Some config) m) h in
  (h', runFinally m', out).

(** ** Mutation methods *)

(** [create]. *)
Definition create (data : Obj) (force : bool) (m : Model) : Model :=
  resetRawData (JS.spread (rawData m) data)
    (setActions (actions m ++ [if force then Create data else FindOrCreate data])
       m).

(** [attach]. *)
Definition attach (callback : Obj -> list Action) (m : Model) : Model :=
  setActions (actions m ++ [Callback callback]) m.

(** One turn of the [forEach] of [update]. *)
Definition updateField (m : Model) (kv : string * value) : Model :=
  proxySet (fst kv) (snd kv)
    (setActions (actions m ++ [Update [kv]]) m).

(** [update]. *)
Definition update (data : Obj) (m : Model) : Model :=
  if JS.isEmpty data then m else fold_left updateField data m.

(** The [forEach] of [delete(keys)]: a throw leaves the loop. *)
Fixpoint deleteKeys (X : Collaborators) (keys : list string) (m : Model)
  : Model * Outcome unit :=
  match keys with
  | [] => (m, Ok tt)
  | key :: keys' =>
      if isBaseProp X key then (m, Throw (ProtectedFieldError key))
      else deleteKeys X keys' (proxyDeleteProperty key m)
  end.

(** [delete]: with keys, or without ([None]). *)
Definition delete (X : Collaborators) (keys : option (list string)) (m : Model)
  : Model * Outcome unit :=
  match keys with
  | Some ks => deleteKeys X ks m
  | None => (resetRawData (rawData m) (setActions (actions m ++ [Delete]) m), Ok tt)
  end.

(** ** Construction *)

(** [ModelActionType], as the constructor takes it. *)
Inductive ModelActionType : Type :=
| TypeCreate | TypeDelete | TypeFindOrCreate | TypeFind | TypeQuery.

(** [ModelParams]. The instance methods are not modelled. *)
Record ModelParams : Type := mkParams
  { pSchema : Schema;
    pData : option Obj;
    pDoc : option DocRef;
    pId : option string;
    pSnap : option Snapshot;
    pType : option ModelActionType;
    pCallback : option (Obj -> list Action);
    pClauses : option (list Clause) }.

(** [getDoc]. *)
Definition getDoc (X : Collaborators) (s : Schema) (sn : option Snapshot)
  (ref : option DocRef) (id : option string) : DocRef :=
  match ref with
  | Some r => r
  | None =>
      match sn with
      | Some sn' => snapRef sn'
      | None =>
          match id with
          | Some i => if JS.nonEmpty i then (sRef s, i) else (sRef s, autoId X)
          | None => (sRef s, autoId X)
          end
      end
  end.

(** Modelled from the spec: [createTypeHasData] of [./model.utils], which
    is not in the source tree: a "creation type requires data". *)
Definition createTypeHasData (t : ModelActionType) (data : option Obj) : bool :=
  match t with
  | TypeCreate | TypeFindOrCreate => isSome data
  | _ => true
  end.

Definition dataOrEmpty (data : option Obj) : Obj :=
  match data with Some o => o | None => [] end.

(** [setupInitialActions]. *)
Definition setupInitialActions (X : Collaborators) (t : option ModelActionType)
  (data : option Obj) (callback : option (Obj -> list Action))
  (clauses : option (list Clause)) (m : Model) : Outcome Model :=
  let m := match callback with
           | Some cb => attach cb m
           | None => m
           end in
  match t with
  | None => Ok m
  | Some ty =>
      if negb (createTypeHasData ty data)
      then Throw (InvariantError "The creation type must define data")
      else
        match ty with
        | TypeCreate => Ok (create (dataOrEmpty data) true m)
        | TypeDelete => Ok (fst (delete X None m))
        | TypeFindOrCreate => Ok (create (dataOrEmpty data) false m)
        | TypeFind => Ok (setActions (actions m ++ [Find]) m)
        | TypeQuery =>
            match clauses with
            | Some (c :: cs) => Ok (setActions (actions m ++ [Query (c :: cs)]) m)
            | _ => Throw (InvariantError "Type must be defined with clauses")
            end
        end
  end.

(** The constructor of [Model]. *)
Definition newModel (X : Collaborators) (p : ModelParams) : Outcome Model :=
  let s := pSchema p in
  let ref := getDoc X s (pSnap p) (pDoc p) (pId p) in
  let id := match pId p with
            | Some i => if JS.nonEmpty i then i else snd ref
            | None => snd ref
            end in
  let m := mkModel [] (JS.spread (sDefaultData s) (dataOrEmpty (pData p)))
             emptyConfig [] None false noActionsRun
             (createDefaultBase X (sVersion s)) false ref id (pSnap p) s in
  match setupInitialActions X (pType p) (pData p) (pCallback p) (pClauses p) m with
  | Ok m' => Ok (setCurrentRunConfig (sConfig s) m')
  | Throw e => Throw e
  end.

(** ** Sample schema, model and database

    A [users] collection whose documents are mirrored into [profiles]
    under the key [user], the mirror document being named by the field
    [owner]. *)
Module Sample.

Local Open Scope string_scope.

Definition collaborators : Collaborators :=
  mkCollaborators
    (fun k => existsb (String.eqb k) ["schemaVersion"; "createdAt"; "updatedAt"])
    (fun o => JS.set o "updatedAt" VServerTimestamp)
    (List.filter (fun kv => match snd kv with VUndefined => false | _ => true end))
    (fun _ _ _ => None)
    (fun version => [("schemaVersion", VNum version)])
    "auto".

Definition plainSchema : Schema :=
  mkSchema "users" 1 [] emptyConfig None [].

Definition mirrorRule : MirrorRule :=
  mkMirror "profiles" "user" (Some "owner") ["a"; "b"].

Definition mirroredSchema : Schema :=
  mkSchema "users" 1 [] emptyConfig (Some mirrorRule) [].

Definition userDoc : DocRef := ("users", "u1").

(** The model the constructor builds for the document [u1] of a schema
    without default data. *)
Definition fresh (s : Schema) (raw : Obj) : Model :=
  mkModel [] raw (sConfig s) [] None false noActionsRun
    [("schemaVersion", VNum 1)] false userDoc "u1" None s.

Definition stored : Obj := [("a", VNum 0); ("b", VNum 5)].

Definition host : Host := mkHost (<[userDoc := stored]> ∅) [] [].

Definition mirrorOn : RunConfig := mkConfig None None (Some true) None.

(** A schema that validates on every run and wants [name] to be a
    string. *)
Definition strictSchema : Schema :=
  mkSchema "users" 1 [] (mkConfig None None None (Some true)) None
    [("name", fun v => match v with VStr _ => true | _ => false end)].

(** A model of the mirrored schema during a run that enables mirroring. *)
Definition mirroredModel (raw : Obj) : Model :=
  setCurrentRunConfig mirrorOn (fresh mirroredSchema raw).

End Sample.

(** ** Predicates used in the statements *)



(** A write that merges into the document: [set] with [{ merge: true }]
    or [update]. A [set] without merge, a [create] and a [delete] replace
    or remove the document. *)
Definition isMergeWrite (op : TxOp) : bool :=
  match op with
  | TxSet _ _ true | TxUpdate _ _ => true
  | _ => false
  end.

(** The document and the payload of a write. *)
Definition writeTarget (op : TxOp) : option (DocRef * Obj) :=
  match op with
  | TxSet ref data _ | TxCreate ref data | TxUpdate ref data => Some (ref, data)
  | _ => None
  end.



(** The per-run transient fields hold their resting values. *)
Definition idle (m : Model) : Prop :=
  errors m = []
  /\ lastRunStatus m = None
  /\ actionsRun m = noActionsRun
  /\ currentRunConfig m = sConfig (schema m).

(** Two models agree on everything but the per-run transient fields. *)
Definition sameLocalState (m m' : Model) : Prop :=
  actions m' = actions m
  /\ rawData m' = rawData m
  /\ existsViaCreation m' = existsViaCreation m
  /\ hasRunSuccessfully m' = hasRunSuccessfully m
  /\ baseData m' = baseData m
  /\ doc m' = doc m
  /\ modelId m' = modelId m
  /\ snap m' = snap m
  /\ schema m' = schema m.

(** A write that creates or replaces the document. *)
Definition isCreateWrite (op : TxOp) : bool :=
  match op with
  | TxCreate _ _ | TxSet _ _ false => true
  | _ => false
  end.

(** A read through the transaction handle. *)
Definition isRead (op : TxOp) : bool :=
  match op with
  | TxGet _ | TxQuery _ _ => true
  | _ => false
  end.

(** What [throwIfInvalid] does for a model: return or throw. *)
Definition validation (X : Collaborators) (m : Model) : Outcome unit :=
  snd (throwIfInvalid X m (mkCtx [] [])).

(** The log the constructor leaves: the callback first, then the action
    of the creation type. *)
Definition initialActions (p : ModelParams) : list Action :=
  match pCallback p with
  | Some cb => [Callback cb]
  | None => []
  end
  ++ match pType p with
     | Some TypeCreate => [Create (dataOrEmpty (pData p))]
     | Some TypeFindOrCreate => [FindOrCreate (dataOrEmpty (pData p))]
     | Some TypeDelete => [Delete]
     | Some TypeFind => [Find]
     | Some TypeQuery =>
         [Query (match pClauses p with Some cs => cs | None => [] end)]
     | None => []
     end.


(** A transaction step that, whatever was issued before it, only adds
    operations that satisfy [P]. *)
Definition emits (P : TxOp -> bool) {A : Type} (t : Tx A) : Prop :=
  forall c, exists new,
    txOps (fst (t c)) = txOps c ++ new /\ forallb P new = true.

Definition refEqb (a b : DocRef) : bool :=
  String.eqb (fst a) (fst b) && String.eqb (snd a) (snd b).

(** An operation on the model's own document, or a query of the
    schema's collection. *)
Definition ownOp (m : Model) (op : TxOp) : bool :=
  match op with
  | TxGet ref | TxSet ref _ _ | TxCreate ref _ | TxUpdate ref _ | TxDelete ref =>
      refEqb ref (doc m)
  | TxQuery collection _ => String.eqb collection (sRef (schema m))
  end.

(** A merge write to a document of the mirror collection. *)
Definition mirrorOp (m : Model) (op : TxOp) : bool :=
  isMergeWrite op
  && match writeTarget op, sMirror (schema m) with
     | Some (ref, _), Some rule => String.eqb (fst ref) (mrCollection rule)
     | _, _ => false
     end.

Definition inFrame (m : Model) (op : TxOp) : bool := ownOp m op || mirrorOp m op.

(** A read of the given document. *)
Definition isGetOf (ref : DocRef) (op : TxOp) : bool :=
  match op with
  | TxGet r => refEqb r ref
  | _ => false
  end.

(** * Properties *)

(** ** Objects *)

Lemma lookup_set_same {A} (o : list (string * A)) k v :
  JS.lookup (JS.set o k v) k = Some v.
Proof.
  induction o as [|[k' v'] o IH]; simpl.
  - by rewrite String.eqb_refl.
  - destruct (String.eqb k' k) eqn:E; simpl; rewrite E; auto.
Qed.

Lemma lookup_set_other {A} (o : list (string * A)) k k' v :
  k <> k' -> JS.lookup (JS.set o k v) k' = JS.lookup o k'.
Proof.
  intros Hne. induction o as [|[k0 v0] o IH]; simpl.
  - destruct (String.eqb_spec k k'); congruence.
  - destruct (String.eqb_spec k0 k) as [->|Hk]; simpl.
    + destruct (String.eqb_spec k k'); congruence.
    + destruct (String.eqb_spec k0 k'); auto.
Qed.

Lemma lookup_remove_same {A} (o : list (string * A)) k :
  JS.lookup (JS.remove o k) k = None.
Proof.
  induction o as [|[k' v'] o IH]; simpl; auto.
  destruct (String.eqb k' k) eqn:E; simpl; rewrite ?E; auto.
Qed.

Lemma lookup_remove_other {A} (o : list (string * A)) k k' :
  k <> k' -> JS.lookup (JS.remove o k) k' = JS.lookup o k'.
Proof.
  intros Hne. induction o as [|[k0 v0] o IH]; simpl; auto.
  destruct (String.eqb_spec k0 k) as [->|Hk]; simpl.
  - destruct (String.eqb_spec k k'); congruence.
  - destruct (String.eqb_spec k0 k'); auto.
Qed.

(** Spreading an object without [k] leaves the lookup of [k] alone. *)
Lemma lookup_spread_absent {A} (b a : list (string * A)) k :
  JS.lookup b k = None -> JS.lookup (JS.spread a b) k = JS.lookup a k.
Proof.
  unfold JS.spread. revert a.
  induction b as [|[k0 v0] b IH]; intros a Hb; simpl in *; auto.
  destruct (String.eqb_spec k0 k) as [->|Hk]; [discriminate|].
  rewrite IH by assumption. by apply lookup_set_other.
Qed.

(** Spreading an object with unique keys: its own fields win. *)
Lemma lookup_spread_present {A} (b a : list (string * A)) k v :
  NoDup (JS.keys b) -> JS.lookup b k = Some v ->
  JS.lookup (JS.spread a b) k = Some v.
Proof.
  unfold JS.spread. revert a.
  induction b as [|[k0 v0] b IH]; intros a Hnd Hb; simpl in *; [discriminate|].
  apply NoDup_cons in Hnd as [Hnotin Hnd].
  destruct (String.eqb_spec k0 k) as [->|Hk].
  - injection Hb as ->.
    assert (Habs : JS.lookup b k = None).
    { clear -Hnotin. induction b as [|[k1 v1] b IH]; simpl in *; auto.
      destruct (String.eqb_spec k1 k) as [->|]; [|apply IH].
      - exfalso. apply Hnotin. left.
      - intros Hin. apply Hnotin. by right. }
    pose proof (lookup_spread_absent b (JS.set a k v) k Habs) as Hs.
    unfold JS.spread in Hs. rewrite Hs. apply lookup_set_same.
  - by apply IH.
Qed.

Lemma lookup_remove_none {A} (o : list (string * A)) k k' :
  JS.lookup o k = None -> JS.lookup (JS.remove o k') k = None.
Proof.
  intros H. destruct (String.eqb_spec k' k) as [->|Hne].
  - apply lookup_remove_same.
  - by rewrite lookup_remove_other.
Qed.

Lemma lookup_fold_remove {A} (ks : list string) (o : list (string * A)) k :
  JS.lookup o k = None \/ In k ks ->
  JS.lookup (fold_left JS.remove ks o) k = None.
Proof.
  revert o. induction ks as [|k0 ks IH]; intros o H; simpl.
  - destruct H as [H|[]]. exact H.
  - apply IH. destruct H as [H|[->|H]].
    + left. by apply lookup_remove_none.
    + left. apply lookup_remove_same.
    + by right.
Qed.

(** ** The mutation methods *)



Lemma deleteKeys_actions (X : Collaborators) (keys : list string) (m : Model) :
  actions (fst (deleteKeys X keys m)) = actions m.
Proof.
  revert m. induction keys as [|k keys IH]; intros m; simpl; auto.
  destruct (isBaseProp X k); simpl; auto. by rewrite IH.
Qed.

Lemma deleteKeys_prefix (X : Collaborators) (pre : list string) (key : string)
  (post : list string) (m : Model) :
  forallb (fun k => negb (isBaseProp X k)) pre = true ->
  isBaseProp X key = true ->
  deleteKeys X (pre ++ key :: post) m
  = (resetRawData (fold_left JS.remove pre (rawData m)) m,
     Throw (ProtectedFieldError key)).
Proof.
  revert m. induction pre as [|k pre IH]; intros m Hpre Hkey; simpl in *.
  - rewrite Hkey. by destruct m.
  - apply andb_prop in Hpre as [Hk Hpre].
    destruct (isBaseProp X k); [discriminate|].
    by rewrite IH.
Qed.

(** C2 (as amended). [delete()] without keys appends a Delete action and
    leaves the local raw data as they are at queue time; the local view
    becomes empty only when the model is reconciled with a transaction
    state that ran a delete. *)
Theorem delete_queues_and_keeps_view (X : Collaborators) (m : Model)
  (st : TransactionState) :
  let m' := fst (delete X None m) in
  snd (delete X None m) = Ok tt
  /\ actions m' = actions m ++ [Delete]
  /\ rawData m' = rawData m
  /\ rawData (updateModelWithTransactionState st m')
     = if ranDelete (stActionsRun st) then []
       else match stSyncData st with
            | Some r => match recData r with
                        | Some o => o
                        | None => rawData m
                        end
            | None => rawData m
            end.
Proof.
  simpl. repeat split.
  unfold updateModelWithTransactionState.
  destruct (ranDelete (stActionsRun st)); [reflexivity|].
  destruct (stSyncData st) as [r|]; [|reflexivity].
  simpl. by destruct (recData r).
Qed.

(** C2 fails as stated: a model that holds data still holds them right
    after [delete()] has queued its action. *)
Lemma delete_resets_view_counterexample :
  let m := Sample.fresh Sample.plainSchema Sample.stored in
  ~ (rawData (fst (delete Sample.collaborators None m)) = []).
Proof. simpl. discriminate. Qed.



(** C5. [delete(keys)] with a protected base field among the keys throws
    the protected-field error from the call itself, and queues no action
    for any of the keys. *)
Theorem delete_protected_key_throws (X : Collaborators) (keys : list string)
  (m : Model) :
  existsb (isBaseProp X) keys = true ->
  exists key m',
    delete X (Some keys) m = (m', Throw (ProtectedFieldError key))
    /\ In key keys
    /\ isBaseProp X key = true
    /\ actions m' = actions m.
Proof.
  intros H. simpl.
  assert (Hact := deleteKeys_actions X keys m).
  revert m Hact. induction keys as [|k keys IH]; intros m Hact; [discriminate|].
  simpl in *. destruct (isBaseProp X k) eqn:Hk.
  - exists k, m. auto.
  - simpl in H. destruct (IH H (proxyDeleteProperty k m) Hact)
      as (key & m' & Heq & Hin & Hbase & Hacts).
    exists key, m'. auto.
Qed.

Lemma delete_protected_key_throws_witness :
  exists key m',
    delete Sample.collaborators (Some ["a"; "schemaVersion"]%string)
      (Sample.fresh Sample.plainSchema Sample.stored)
    = (m', Throw (ProtectedFieldError key))
    /\ In key ["a"; "schemaVersion"]%string
    /\ isBaseProp Sample.collaborators key = true
    /\ actions m' = [].
Proof.
  apply (delete_protected_key_throws Sample.collaborators
           ["a"; "schemaVersion"]%string
           (Sample.fresh Sample.plainSchema Sample.stored)).
  reflexivity.
Defined.

(** C10. [delete(keys)] works through the keys in list order: when the
    protected-field error is thrown, every key before the first protected
    one has already been removed from the local view. *)
Theorem delete_keys_not_atomic (X : Collaborators) (pre : list string)
  (key : string) (post : list string) (m : Model) :
  forallb (fun k => negb (isBaseProp X k)) pre = true ->
  isBaseProp X key = true ->
  exists m',
    delete X (Some (pre ++ key :: post)) m = (m', Throw (ProtectedFieldError key))
    /\ rawData m' = fold_left JS.remove pre (rawData m)
    /\ Forall (fun k => JS.has (rawData m') k = false) pre.
Proof.
  intros Hpre Hkey. eexists. split; [|split].
  - simpl. by apply deleteKeys_prefix.
  - reflexivity.
  - simpl. apply Forall_forall. intros k Hk. unfold JS.has.
    rewrite lookup_fold_remove; [reflexivity|].
    right. by apply list_elem_of_In.
Qed.

Lemma delete_keys_not_atomic_witness :
  exists m',
    delete Sample.collaborators (Some (["a"%string] ++ "schemaVersion"%string :: ["b"%string]))
      (Sample.fresh Sample.plainSchema Sample.stored)
    = (m', Throw (ProtectedFieldError "schemaVersion"))
    /\ rawData m' = [("b", VNum 5)]
    /\ Forall (fun k => JS.has (rawData m') k = false) ["a"%string].
Proof.
  apply (delete_keys_not_atomic Sample.collaborators ["a"%string]
           "schemaVersion" ["b"%string]
           (Sample.fresh Sample.plainSchema Sample.stored));
    reflexivity.
Defined.

(** ** The mirror writer *)

Ltac tx_simpl :=
  unfold bind, issue, logError, ret, throw in *; simpl in *.

(** C3. Every write the mirror writer issues goes to the mirror
    collection and merges: it is a [set] with [merge: true], preceded for
    a dot-path key by an [update] of the same payload; none replaces the
    document. The delete marker is written under the configured key
    only. *)
Theorem mirror_writes_are_merges (X : Collaborators) (m : Model)
  (u : MirrorUpdates) (c : TxCtx) :
  exists new,
    txOps (fst (mirrorTransaction X m u c)) = txOps c ++ new
    /\ forallb isMergeWrite new = true
    /\ match sMirror (schema m) with
       | None => new = []
       | Some rule =>
           Forall
             (fun op =>
                exists id payload,
                  (op = TxSet (mrCollection rule, id) payload true
                   \/ (JS.includesDot (mrName rule) = true
                       /\ op = TxUpdate (mrCollection rule, id) payload))
                  /\ match u with
                     | MirrorDelete =>
                         payload
                         = serverUpdateTimestamp X [(mrName rule, VFieldDelete)]
                     | MirrorData updates =>
                         payload
                         = serverUpdateTimestamp X
                             [(mrName rule,
                               VObj (removeUndefined X
                                       (buildMirrorData updates (mrFields rule))))]
                     end)
             new
       end.
Proof.
  unfold mirrorTransaction.
  destruct (canMirror m); destruct (sMirror (schema m)) as [rule|];
    try (exists []; rewrite app_nil_r; by repeat split).
  destruct (truthy (mirrorIdOf m rule)); simpl;
    [|exists []; rewrite app_nil_r; by repeat split].
  destruct (mirrorIdOf m rule) as [| |b|n|s| | |o]; tx_simpl;
    try (exists []; rewrite app_nil_r; by repeat split).
  destruct u as [updates|]; simpl.
  - destruct (JS.isEmpty (buildMirrorData updates (mrFields rule))); simpl;
      [exists []; rewrite app_nil_r; by repeat split|].
    destruct (JS.includesDot (mrName rule)) eqn:Hdot; simpl.
    + eexists [_; _]. rewrite <- app_assoc. simpl.
      split; [reflexivity|]. split; [reflexivity|].
      repeat constructor; eexists _, _; eauto.
    + eexists [_]. split; [reflexivity|]. split; [reflexivity|].
      repeat constructor; eexists _, _; eauto.
  - eexists [_]. split; [reflexivity|]. split; [reflexivity|].
    repeat constructor. eexists _, _; eauto.
Qed.

Lemma lookup_pick_from {A} (o : list (string * A)) (ks : list string)
  (acc : list (string * A)) (k : string) :
  JS.lookup
    (fold_left
       (fun acc k => match JS.lookup o k with
                     | Some v => JS.set acc k v
                     | None => acc
                     end) ks acc) k
  = if existsb (String.eqb k) ks
    then match JS.lookup o k with
         | Some v => Some v
         | None => JS.lookup acc k
         end
    else JS.lookup acc k.
Proof.
  revert acc. induction ks as [|k0 ks IH]; intros acc; simpl; auto.
  rewrite IH. destruct (String.eqb_spec k k0) as [<-|Hne]; simpl.
  - destruct (JS.lookup o k) as [v|] eqn:Ho.
    + rewrite lookup_set_same. by destruct (existsb _ ks).
    + by destruct (existsb _ ks).
  - destruct (JS.lookup o k0) as [v0|]; [|reflexivity].
    rewrite lookup_set_other by congruence. reflexivity.
Qed.




(** The example of the specification: with the mirror fields [a] and
    [b], an update of [c] alone is written to the user document and
    nothing is written to the mirror. *)
Example update_outside_mirror_fields :
  let m := update [("c", VNum 2)]
             (Sample.fresh Sample.mirroredSchema [("owner", VStr "o1")]) in
  let '(h, _, out) := run Sample.collaborators Sample.mirrorOn m Sample.host in
  out = Ok tt
  /\ io h = [IOTransaction [TxSet Sample.userDoc [("c", VNum 2)] true] true]
  /\ logs h = [LogNoDataPassed].
Proof. vm_compute. repeat split. Qed.

(** ** The delete branch *)

(** C9 (as amended). When a Delete is queued, the mirror rule names an
    id field and the local raw data hold nothing for it, the attempt
    reads the document, the mirror step still finds no id in the local
    data and writes nothing, and the document is deleted. The skip is
    logged when mirroring is active for the run, and silent otherwise. *)
Theorem delete_without_local_mirror_id (X : Collaborators)
  (alwaysGet : option bool) (m : Model) (d : Db) (rule : MirrorRule)
  (idField : string) :
  actionsContainDelete (actions m) = true ->
  sMirror (schema m) = Some rule ->
  mrIdField rule = Some idField ->
  JS.nonEmpty idField = true ->
  truthy (JS.get (rawData m) idField) = false ->
  exists st,
    attempt X alwaysGet m d (mkCtx [] [])
    = (mkCtx [TxGet (doc m); TxDelete (doc m)]
         (if canMirror m then [LogMirrorNoId (modelId m) (rawData m)] else []),
       Ok st)
    /\ stLastRunStatus st = Some Deleted
    /\ ranDelete (stActionsRun st) = true.
Proof.
  intros Hdel Hrule Hid Hne Hraw.
  unfold attempt. rewrite Hdel.
  unfold getIdFieldFromSchema. rewrite Hrule, Hid, Hne, Hraw. simpl.
  unfold getTransaction, mirrorTransaction, deleteTransaction.
  rewrite Hrule.
  destruct (canMirror m); simpl; unfold mirrorIdOf;
    rewrite ?Hid, ?Hne, ?Hraw; tx_simpl; eexists; repeat split.
Qed.

Lemma delete_without_local_mirror_id_witness :
  let m := fst (delete Sample.collaborators None (Sample.mirroredModel [])) in
  exists st,
    attempt Sample.collaborators None m (db Sample.host) (mkCtx [] [])
    = (mkCtx [TxGet Sample.userDoc; TxDelete Sample.userDoc]
         [LogMirrorNoId "u1" []], Ok st)
    /\ stLastRunStatus st = Some Deleted
    /\ ranDelete (stActionsRun st) = true.
Proof.
  intros m.
  exact (delete_without_local_mirror_id Sample.collaborators None m
           (db Sample.host) Sample.mirrorRule "owner"
           eq_refl eq_refl eq_refl eq_refl eq_refl).
Defined.

(** C9 fails as stated: the premises hold, the run does not enable
    mirroring, and the mirror step is skipped without any message. *)
Lemma delete_mirror_skip_logged_counterexample :
  let m := fst (delete Sample.collaborators None
                  (Sample.fresh Sample.mirroredSchema [])) in
  let '(h, _, out) := run Sample.collaborators emptyConfig m Sample.host in
  actionsContainDelete (actions m) = true
  /\ getIdFieldFromSchema (schema m) = Some "owner"%string
  /\ JS.get (rawData m) "owner" = VUndefined
  /\ out = Ok tt
  /\ io h = [IOTransaction [TxGet Sample.userDoc; TxDelete Sample.userDoc] true]
  /\ logs h = [].
Proof. vm_compute. repeat split. Qed.

(** ** The run lifecycle *)

Lemma spreadConfig_empty (c : RunConfig) : spreadConfig c emptyConfig = c.
Proof. by destruct c. Qed.

Lemma runFinally_idle (m : Model) : idle (runFinally m).
Proof.
  unfold idle, runFinally, setCurrentConfig. simpl.
  by rewrite spreadConfig_empty.
Qed.

Lemma runFinally_same (m : Model) : sameLocalState m (runFinally m).
Proof. by repeat split. Qed.

Lemma runFinally_of_idle (config : RunConfig) (m : Model) :
  idle m -> runFinally (setCurrentConfig (Some config) m) = m.
Proof.
  intros (He & Hs & Hr & Hc). destruct m; simpl in *. subst.
  unfold runFinally, setCurrentConfig. simpl.
  by rewrite spreadConfig_empty.
Qed.


Lemma run_empty_log (X : Collaborators) (config : RunConfig) (m : Model)
  (h : Host) :
  actions m = [] ->
  optTrue (forceGet config) = false ->
  run X config m h
  = (hostLog LogNoDataToProcess h,
     runFinally (setCurrentConfig (Some config) m), Ok tt).
Proof.
  intros Hact Hget.
  unfold run, runTry, buildTransaction. simpl. by rewrite Hact, Hget.
Qed.

(** A run that resolves leaves an empty log and a model at rest. *)
Lemma run_ok_clears_log (X : Collaborators) (config : RunConfig) (m : Model)
  (h : Host) :
  let '(_, m', out) := run X config m h in
  match out with
  | Ok _ => actions m' = [] /\ idle m'
  | Throw _ => True
  end.
Proof.
  unfold run, runTry, buildTransaction.
  destruct (JS.isEmpty (actions (setCurrentConfig (Some config) m))
            && negb (optTrue (forceGet config))) eqn:E.
  - simpl in *. split; [|apply runFinally_idle].
    apply andb_prop in E as [E _]. by destruct (actions m).
  - destruct (runTransaction _ h) as [h1 [st|e]]; [|exact I].
    destruct (errors _) as [|e0 es]; [|exact I].
    destruct (forceGetIfNeeded config _ h1) as [h2 m2].
    split; [reflexivity|apply runFinally_idle].
Qed.

(** C7. With an empty action log and no [forceGet] in the run
    configuration, [run] starts no transaction and issues no read or
    write: it logs that there is nothing to process and resolves, and a
    model at rest comes back unchanged. *)
Theorem run_without_actions_does_no_io (X : Collaborators) (config : RunConfig)
  (m : Model) (h : Host) :
  actions m = [] ->
  optTrue (forceGet config) = false ->
  exists h' m',
    run X config m h = (h', m', Ok tt)
    /\ db h' = db h
    /\ io h' = io h
    /\ logs h' = logs h ++ [LogNoDataToProcess]
    /\ sameLocalState m m'
    /\ (idle m -> m' = m).
Proof.
  intros Hact Hget. rewrite run_empty_log by assumption.
  eexists _, _. split; [reflexivity|]. repeat split.
  apply runFinally_of_idle.
Qed.

(** X16. The second of two runs: after a run that resolved, whatever it
    did, a run without [forceGet] starts no transaction, and changes
    neither the database nor the model; it only logs that there is
    nothing to process. *)
Corollary second_run_is_silent (X : Collaborators) (config1 config2 : RunConfig)
  (m : Model) (h : Host) :
  optTrue (forceGet config2) = false ->
  let '(h1, m1, out1) := run X config1 m h in
  match out1 with
  | Ok _ => run X config2 m1 h1 = (hostLog LogNoDataToProcess h1, m1, Ok tt)
  | Throw _ => True
  end.
Proof.
  intros Hget. pose proof (run_ok_clears_log X config1 m h) as H.
  destruct (run X config1 m h) as [[h1 m1] [[]|e]]; [|exact I].
  destruct H as [Hact Hidle].
  rewrite run_empty_log by assumption.
  by rewrite runFinally_of_idle.
Qed.

Lemma run_without_actions_does_no_io_witness :
  let m := Sample.fresh Sample.plainSchema Sample.stored in
  exists h' m',
    run Sample.collaborators emptyConfig m Sample.host = (h', m', Ok tt)
    /\ db h' = db Sample.host
    /\ io h' = io Sample.host
    /\ logs h' = logs Sample.host ++ [LogNoDataToProcess]
    /\ sameLocalState m m'
    /\ (idle m -> m' = m).
Proof.
  exact (run_without_actions_does_no_io Sample.collaborators emptyConfig
           (Sample.fresh Sample.plainSchema Sample.stored) Sample.host
           eq_refl eq_refl).
Defined.


(** The spec's example of a failed validation: the run rejects, nothing
    reaches the database and the local view keeps the attempted data. *)
Example run_validation_failure :
  let m := create [("name", VNum 3)] true
             (Sample.fresh Sample.strictSchema []) in
  let '(h, m', out) := run Sample.collaborators emptyConfig m
                         (mkHost ∅ [] []) in
  out = Throw (SchemaFireValidationError ["name"%string])
  /\ io h = [IOTransaction [] false]
  /\ db h !! Sample.userDoc = None
  /\ rawData m' = [("name", VNum 3)]
  /\ actions m' = actions m.
Proof. vm_compute. repeat split. Qed.

(** ** The find-or-create branch *)

Lemma throwIfInvalid_ctx (X : Collaborators) (m : Model) (c : TxCtx) :
  throwIfInvalid X m c = (c, validation X m).
Proof.
  unfold validation, throwIfInvalid.
  destruct (autoValidate (currentRunConfig m)) as [[|]|]; try reflexivity.
  by destruct (validate X m).
Qed.

(** The mirror step only appends merge writes, and it returns unless the
    host rejects the mirror id. *)
Lemma mirror_frame (X : Collaborators) (m : Model) (u : MirrorUpdates)
  (c : TxCtx) :
  exists new lg out,
    mirrorTransaction X m u c = (mkCtx (txOps c ++ new) lg, out)
    /\ forallb isMergeWrite new = true
    /\ (out = Ok tt \/ out = Throw HostError).
Proof.
  assert (Hid : forall o : Outcome unit,
    o = Ok tt \/ o = Throw HostError ->
    exists new lg out,
      (c, o) = (mkCtx (txOps c ++ new) lg, out)
      /\ forallb isMergeWrite new = true
      /\ (out = Ok tt \/ out = Throw HostError)).
  { intros o Ho. exists [], (txLogs c), o. rewrite app_nil_r.
    destruct c. auto. }
  unfold mirrorTransaction.
  destruct (canMirror m); destruct (sMirror (schema m)) as [rule|];
    try (apply Hid; by left).
  destruct (truthy (mirrorIdOf m rule)); simpl.
  2:{ exists [], (txLogs c ++ [LogMirrorNoId (modelId m) (rawData m)]), (Ok tt).
      rewrite app_nil_r. auto. }
  destruct (mirrorIdOf m rule) as [| |b|n|s| | |o]; tx_simpl;
    try (apply Hid; by right).
  destruct u as [updates|]; simpl.
  - destruct (JS.isEmpty (buildMirrorData updates (mrFields rule))); simpl.
    + exists [], (txLogs c ++ [LogNoDataPassed]), (Ok tt).
      rewrite app_nil_r. auto.
    + destruct (JS.includesDot (mrName rule)); simpl.
      * eexists [_; _], _, _. rewrite <- app_assoc. simpl. eauto.
      * eexists [_], _, _. eauto.
  - eexists [_], _, _. eauto.
Qed.

Lemma getTransaction_found (d : Db) (ref : DocRef) (st : TransactionState)
  (noData : bool) (c : TxCtx) (o : Obj) :
  d !! ref = Some o ->
  exists st',
    getTransaction d ref st noData c
    = (mkCtx (txOps c ++ [TxGet ref]) (txLogs c), Ok st')
    /\ stLastRunStatus st' = Some Found
    /\ stActions st' = stActions st
    /\ (match stSyncData st' with
        | Some r => recSnap r
        | None => None
        end) = Some (mkSnapshot ref true (Some o)).
Proof.
  intros Hd. unfold getTransaction. tx_simpl. rewrite Hd. simpl.
  eexists. repeat split.
Qed.

Lemma merge_writes_not_create (ops : list TxOp) :
  forallb isMergeWrite ops = true ->
  forallb (fun op => negb (isCreateWrite op)) ops = true.
Proof.
  induction ops as [|op ops IH]; simpl; auto.
  intros H. apply andb_prop in H as [Hop Hops].
  rewrite IH by assumption. by destruct op as [| | ? ? []| | |].
Qed.

#[local] Arguments buildUpdatedData : simpl never.

(** C1 (as amended). When the document exists and the log holds a
    FindOrCreate action and no Delete, Query, Callback or Create action,
    the attempt reads the document and issues no create write. It then
    goes on to the update step: with empty folded data it writes nothing
    and ends with the status found; otherwise, once validation has
    passed, it issues a merge write of the folded data to the document
    and ends with the status updated. *)
Theorem findOrCreate_on_existing_document (X : Collaborators)
  (alwaysGet : option bool) (m : Model) (d : Db) (o : Obj) :
  actionsContainFindOrCreate (actions m) = true ->
  actionsContainDelete (actions m) = false ->
  findQueryAction (actions m) = None ->
  actionsContainCallback (actions m) = false ->
  actionsContainCreate (actions m) = false ->
  d !! doc m = Some o ->
  let data := buildUpdatedData false (rawData m) (actions m) in
  let r := attempt X alwaysGet m d (mkCtx [] []) in
  let ops := txOps (fst r) in
  In (TxGet (doc m)) ops
  /\ forallb (fun op => negb (isCreateWrite op)) ops = true
  /\ if JS.isEmpty data
     then forallb isRead ops = true
          /\ exists st, snd r = Ok st /\ stLastRunStatus st = Some Found
     else match validation X m with
          | Throw e => snd r = Throw e /\ forallb isRead ops = true
          | Ok _ =>
              In (TxSet (doc m) data true) ops
              /\ match snd r with
                 | Ok st => stLastRunStatus st = Some Updated
                 | Throw e => e = HostError
                 end
          end.
Proof.
  intros Hfoc Hdel Hq Hcb Hcr Hd data r ops.
  subst r ops. unfold attempt.
  rewrite Hdel, Hq, Hcb, Hfoc, Hcr.
  unfold createTransactionState, getTransaction, updateTransaction.
  destruct (actionsContainFind (actions m)), (optTrue alwaysGet);
    tx_simpl; rewrite ?Hd; simpl; rewrite ?app_nil_r; fold data;
    destruct (JS.isEmpty data) eqn:He; simpl; rewrite ?Hd; simpl;
    try (repeat split; eauto; fail);
    rewrite throwIfInvalid_ctx; destruct (validation X m) as [[]|e]; simpl;
    try (repeat split; eauto; fail);
    match goal with
    | |- context [mirrorTransaction X m ?u ?c] =>
        destruct (mirror_frame X m u c) as (new & lg & out & -> & Hm & [->| ->])
    end; simpl;
    rewrite ?forallb_app, (merge_writes_not_create _ Hm); simpl;
    repeat split; auto; rewrite ?in_app_iff; simpl; auto.
Qed.

Lemma findOrCreate_on_existing_document_witness :
  let m := create [("a", VNum 1)] false
             (update [("b", VNum 9)] (Sample.fresh Sample.plainSchema [])) in
  let data := buildUpdatedData false (rawData m) (actions m) in
  let r := attempt Sample.collaborators None m (db Sample.host) (mkCtx [] []) in
  let ops := txOps (fst r) in
  In (TxGet (doc m)) ops
  /\ forallb (fun op => negb (isCreateWrite op)) ops = true
  /\ In (TxSet (doc m) data true) ops
  /\ match snd r with
     | Ok st => stLastRunStatus st = Some Updated
     | Throw e => e = HostError
     end.
Proof.
  intros m data r ops.
  pose proof (findOrCreate_on_existing_document Sample.collaborators None m
                (db Sample.host) Sample.stored
                eq_refl eq_refl eq_refl eq_refl eq_refl
                ltac:(vm_compute; reflexivity)) as H.
  exact H.
Defined.

(** With nothing to fold, the find-or-create run ends with the status
    found and only reads. *)
Example findOrCreate_found_without_data :
  let m := create [] false (Sample.fresh Sample.plainSchema []) in
  let r := attempt Sample.collaborators None m (db Sample.host) (mkCtx [] []) in
  txOps (fst r) = [TxGet Sample.userDoc]
  /\ match snd r with
     | Ok st => stLastRunStatus st = Some Found
     | Throw _ => False
     end.
Proof. vm_compute. split; reflexivity. Qed.

(** C1 fails as stated: a model with a queued update calls
    [create(data, false)] and runs against its existing document; after
    the read has found the document a write is issued, the stored field
    [b] is overwritten, and the status of the attempt is updated, not
    found. *)
Lemma findOrCreate_overwrites_counterexample :
  let m := create [("a", VNum 1)] false
             (update [("b", VNum 9)] (Sample.fresh Sample.plainSchema [])) in
  let '(h, _, out) := run Sample.collaborators emptyConfig m Sample.host in
  db Sample.host !! doc m = Some Sample.stored
  /\ JS.get Sample.stored "b" = VNum 5
  /\ out = Ok tt
  /\ (exists payload,
        io h = [IOTransaction [TxGet (doc m); TxSet (doc m) payload true] true]
        /\ JS.get payload "b" = VNum 9)
  /\ (exists o, db h !! doc m = Some o /\ JS.get o "b" = VNum 9)
  /\ match snd (attempt Sample.collaborators None m (db Sample.host)
                  (mkCtx [] [])) with
     | Ok st => stLastRunStatus st = Some Updated
     | Throw _ => False
     end.
Proof.
  vm_compute. repeat split; try (eexists; split; reflexivity).
Qed.

(** ** Models at rest *)

(** No mutation method touches the per-run transient fields. *)
Lemma create_idle (data : Obj) (force : bool) (m : Model) :
  idle m -> idle (create data force m).
Proof. by intros H. Qed.

Lemma attach_idle (callback : Obj -> list Action) (m : Model) :
  idle m -> idle (attach callback m).
Proof. by intros H. Qed.

Lemma update_idle (data : Obj) (m : Model) : idle m -> idle (update data m).
Proof.
  unfold update. destruct (JS.isEmpty data); [done|].
  revert m. induction data as [|kv data IH]; intros m H; simpl; [done|].
  by apply IH.
Qed.

Lemma delete_idle (X : Collaborators) (keys : option (list string)) (m : Model) :
  idle m -> idle (fst (delete X keys m)).
Proof.
  destruct keys as [ks|]; simpl; [|done].
  revert m. induction ks as [|k ks IH]; intros m H; simpl; [done|].
  destruct (isBaseProp X k); [done|]. by apply IH.
Qed.

(** The constructor hands out a model at rest, and [run] leaves one
    behind, so every call of [run] starts from a model at rest. *)
Lemma newModel_idle (X : Collaborators) (p : ModelParams) (m : Model) :
  newModel X p = Ok m -> idle m.
Proof.
  unfold newModel.
  destruct (setupInitialActions X (pType p) (pData p) (pCallback p)
              (pClauses p) _) as [m'|e] eqn:E; [|discriminate].
  intros [= <-]. unfold setupInitialActions in E.
  destruct (pType p) as [ty|].
  - destruct (negb (createTypeHasData ty (pData p))); [discriminate|].
    destruct ty, (pCallback p), (pClauses p) as [[|c cs]|];
      try discriminate; injection E as <-; by repeat split.
  - injection E as <-. destruct (pCallback p); by repeat split.
Qed.

Example fresh_is_constructed :
  newModel Sample.collaborators
    (mkParams Sample.plainSchema (Some Sample.stored) None (Some "u1"%string)
       None None None None)
  = Ok (Sample.fresh Sample.plainSchema Sample.stored).
Proof. reflexivity. Qed.

(** The spec's example of a callback: an update queued by a callback
    during the run is written with the rest, after the queued ones. *)
Example callback_update_is_persisted :
  let m := attach (fun _ => [Update [("x", VNum 1)]])
             (update [("x", VNum 0)] (Sample.fresh Sample.plainSchema [])) in
  let '(h, m', out) := run Sample.collaborators emptyConfig m Sample.host in
  out = Ok tt
  /\ db h !! Sample.userDoc
     = Some [("a", VNum 0); ("b", VNum 5); ("x", VNum 1)]
  /\ actions m' = [].
Proof. vm_compute. repeat split. Qed.

(** * Further properties of the model *)

(** ** The local view under the mutation methods *)

Lemma lookup_spread (b a : Obj) (k : string) :
  NoDup (JS.keys b) ->
  JS.lookup (JS.spread a b) k
  = match JS.lookup b k with
    | Some v => Some v
    | None => JS.lookup a k
    end.
Proof.
  intros Hnd. destruct (JS.lookup b k) as [v|] eqn:Hb.
  - by apply lookup_spread_present.
  - by apply lookup_spread_absent.
Qed.

Lemma updateField_fold_raw (payload : Obj) (m : Model) :
  rawData (fold_left updateField payload m) = JS.spread (rawData m) payload.
Proof.
  unfold JS.spread. revert m.
  induction payload as [|kv payload IH]; intros m; simpl; [reflexivity|].
  by rewrite IH.
Qed.

Lemma update_is_fold (payload : Obj) (m : Model) :
  update payload m = fold_left updateField payload m.
Proof. by destruct payload. Qed.

(** X1. After [update(payload)] every field of the payload reads back
    from the local view with the value given, and every other field of
    the view is as it was. *)
Theorem update_reads_back (payload : Obj) (m : Model) (k : string) :
  NoDup (JS.keys payload) ->
  JS.lookup (rawData (update payload m)) k
  = match JS.lookup payload k with
    | Some v => Some v
    | None => JS.lookup (rawData m) k
    end.
Proof.
  intros Hnd. rewrite update_is_fold, updateField_fold_raw.
  by apply lookup_spread.
Qed.

Lemma update_reads_back_witness :
  let m := Sample.fresh Sample.plainSchema Sample.stored in
  JS.lookup (rawData (update [("b", VNum 9); ("c", VNull)] m)) "b" = Some (VNum 9)
  /\ JS.lookup (rawData (update [("b", VNum 9); ("c", VNull)] m)) "a"
     = Some (VNum 0).
Proof.
  assert (Hnd : NoDup (JS.keys [("b"%string, VNum 9); ("c"%string, VNull)])).
  { repeat constructor; simpl; intros H; inversion H; subst;
      try discriminate; match goal with H' : _ ∈ [] |- _ => inversion H' end. }
  split.
  - exact (update_reads_back [("b", VNum 9); ("c", VNull)]
             (Sample.fresh Sample.plainSchema Sample.stored) "b" Hnd).
  - exact (update_reads_back [("b", VNum 9); ("c", VNull)]
             (Sample.fresh Sample.plainSchema Sample.stored) "a" Hnd).
Defined.

(** X2. One [update] with the fields of two payloads, one after the
    other, leaves the model exactly as two [update] calls do: the same
    log and the same local view. *)
Theorem update_app (p1 p2 : Obj) (m : Model) :
  update (p1 ++ p2) m = update p2 (update p1 m).
Proof. rewrite !update_is_fold. apply fold_left_app. Qed.

(** X3. [create(data, force)] appends exactly one action, Create when
    forced and FindOrCreate otherwise, and lays the data over the local
    view: the fields of the data read back with their values, the other
    fields are as they were. *)
Theorem create_reads_back (data : Obj) (force : bool) (m : Model) (k : string) :
  NoDup (JS.keys data) ->
  actions (create data force m)
  = actions m ++ [if force then Create data else FindOrCreate data]
  /\ JS.lookup (rawData (create data force m)) k
     = match JS.lookup data k with
       | Some v => Some v
       | None => JS.lookup (rawData m) k
       end.
Proof.
  intros Hnd. split; [reflexivity|]. simpl. by apply lookup_spread.
Qed.

Lemma create_reads_back_witness :
  let m := Sample.fresh Sample.plainSchema Sample.stored in
  actions (create [("a", VNum 1)] false m) = [FindOrCreate [("a", VNum 1)]]
  /\ JS.lookup (rawData (create [("a", VNum 1)] false m)) "b" = Some (VNum 5).
Proof.
  apply (create_reads_back [("a", VNum 1)] false
           (Sample.fresh Sample.plainSchema Sample.stored) "b").
  repeat constructor. intros H. inversion H.
Defined.

Lemma lookup_fold_remove_other {A} (ks : list string) (o : list (string * A)) k :
  existsb (String.eqb k) ks = false ->
  JS.lookup (fold_left JS.remove ks o) k = JS.lookup o k.
Proof.
  revert o. induction ks as [|k0 ks IH]; intros o H; simpl in *; [reflexivity|].
  apply orb_false_elim in H as [Hk Hks].
  rewrite IH by assumption. apply lookup_remove_other.
  intros ->. by rewrite String.eqb_refl in Hk.
Qed.

Lemma existsb_eqb_In (k : string) (ks : list string) :
  existsb (String.eqb k) ks = true <-> In k ks.
Proof.
  rewrite existsb_exists. split.
  - intros (x & Hx & E). apply String.eqb_eq in E. by subst.
  - intros H. exists k. split; [exact H|apply String.eqb_refl].
Qed.

Lemma deleteKeys_unprotected (X : Collaborators) (keys : list string) (m : Model) :
  forallb (fun k => negb (isBaseProp X k)) keys = true ->
  deleteKeys X keys m
  = (resetRawData (fold_left JS.remove keys (rawData m)) m, Ok tt).
Proof.
  revert m. induction keys as [|k keys IH]; intros m H; simpl in *.
  - by destruct m.
  - apply andb_prop in H as [Hk H].
    destruct (isBaseProp X k); [discriminate|]. by rewrite IH.
Qed.

(** X4. [delete(keys)] without a protected key among the keys returns
    normally, queues nothing, removes every named field from the local
    view and leaves the other fields alone. With an empty list of keys
    it changes nothing: no document delete is queued. *)
Theorem delete_keys_removes_fields (X : Collaborators) (keys : list string)
  (m : Model) (k : string) :
  forallb (fun key => negb (isBaseProp X key)) keys = true ->
  snd (delete X (Some keys) m) = Ok tt
  /\ actions (fst (delete X (Some keys) m)) = actions m
  /\ JS.lookup (rawData (fst (delete X (Some keys) m))) k
     = (if existsb (String.eqb k) keys then None else JS.lookup (rawData m) k)
  /\ delete X (Some []) m = (m, Ok tt).
Proof.
  intros H. simpl. rewrite deleteKeys_unprotected by assumption. simpl.
  repeat split.
  destruct (existsb (String.eqb k) keys) eqn:E.
  - apply lookup_fold_remove. right. by apply existsb_eqb_In.
  - by apply lookup_fold_remove_other.
Qed.

Lemma delete_keys_removes_fields_witness :
  let m := Sample.fresh Sample.plainSchema Sample.stored in
  snd (delete Sample.collaborators (Some ["a"%string]) m) = Ok tt
  /\ actions (fst (delete Sample.collaborators (Some ["a"%string]) m)) = []
  /\ JS.lookup (rawData (fst (delete Sample.collaborators (Some ["a"%string]) m)))
       "b" = Some (VNum 5)
  /\ delete Sample.collaborators (Some []) m = (m, Ok tt).
Proof.
  exact (delete_keys_removes_fields Sample.collaborators ["a"%string]
           (Sample.fresh Sample.plainSchema Sample.stored) "b" eq_refl).
Defined.

(** ** The constructor *)


(** X6. The model the constructor returns: its log holds the callback,
    if one was passed, and then the action of the creation type; its
    local view is the schema's default data with the data passed laid
    over them; it has not run, and its transient fields are at rest. *)
Theorem newModel_result (X : Collaborators) (p : ModelParams) (m : Model)
  (k : string) :
  newModel X p = Ok m ->
  NoDup (JS.keys (dataOrEmpty (pData p))) ->
  actions m = initialActions p
  /\ JS.lookup (rawData m) k
     = match JS.lookup (dataOrEmpty (pData p)) k with
       | Some v => Some v
       | None => JS.lookup (sDefaultData (pSchema p)) k
       end
  /\ schema m = pSchema p
  /\ hasRunSuccessfully m = false
  /\ idle m.
Proof.
  intros Hm Hnd. split; [|split; [|split; [|split]]];
    [| | | |by apply (newModel_idle X p)].
  all: revert Hm; unfold newModel, setupInitialActions, initialActions.
  all: destruct (pType p) as [ty|];
    [destruct (negb (createTypeHasData ty (pData p))); [discriminate|];
     destruct ty, (pCallback p), (pClauses p) as [[|c cs]|];
     try discriminate|destruct (pCallback p)];
    intros [= <-]; simpl; try reflexivity.
  all: rewrite ?(lookup_spread _ _ k Hnd);
    by destruct (JS.lookup (dataOrEmpty (pData p)) k).
Qed.

Lemma newModel_result_witness :
  let m := Sample.fresh Sample.plainSchema Sample.stored in
  actions m = []
  /\ JS.lookup (rawData m) "b" = Some (VNum 5)
  /\ schema m = Sample.plainSchema
  /\ hasRunSuccessfully m = false
  /\ idle m.
Proof.
  apply (newModel_result Sample.collaborators
           (mkParams Sample.plainSchema (Some Sample.stored) None
              (Some "u1"%string) None None None None)
           (Sample.fresh Sample.plainSchema Sample.stored) "b" eq_refl).
  repeat constructor; simpl; intros H; inversion H; subst;
    match goal with H' : _ ∈ [] |- _ => inversion H' end.
Defined.

(** ** The run configuration and the mirror writer *)

(** X7. Mirroring is active during a run exactly when the schema has a
    mirror rule, the model has a non-empty id and the [mirror] flag is
    true in the run configuration or, when the run configuration leaves
    it out, in the schema's configuration. When it is not active the
    mirror step writes nothing, logs nothing and returns. *)
Theorem mirror_switch (X : Collaborators) (config : RunConfig) (m : Model)
  (u : MirrorUpdates) (c : TxCtx) :
  let m' := setCurrentConfig (Some config) m in
  canMirror m'
  = isSome (sMirror (schema m)) && JS.nonEmpty (modelId m)
    && optTrue (match mirror config with
                | Some b => Some b
                | None => mirror (sConfig (schema m))
                end)
  /\ if canMirror m' then True
     else mirrorTransaction X m' u c = (c, Ok tt).
Proof.
  simpl. split.
  - unfold canMirror. simpl.
    by destruct (mirror config) as [[]|], (mirror (sConfig (schema m))) as [[]|].
  - unfold mirrorTransaction.
    by destruct (canMirror (setCurrentConfig (Some config) m)).
Qed.

(** ** What a transaction attempt issues *)

Lemma emits_ret (P : TxOp -> bool) {A} (a : A) : emits P (ret a).
Proof. intros c. exists []. by rewrite app_nil_r. Qed.

Lemma emits_throw (P : TxOp -> bool) {A} (e : Error) : emits P (@throw A e).
Proof. intros c. exists []. by rewrite app_nil_r. Qed.

Lemma emits_logError (P : TxOp -> bool) (msg : LogMsg) : emits P (logError msg).
Proof. intros c. exists []. simpl. by rewrite app_nil_r. Qed.

Lemma emits_issue (P : TxOp -> bool) (op : TxOp) :
  P op = true -> emits P (issue op).
Proof. intros H c. exists [op]. simpl. by rewrite H. Qed.

Lemma emits_bind (P : TxOp -> bool) {A B} (t : Tx A) (k : A -> Tx B) :
  emits P t -> (forall a, emits P (k a)) -> emits P (bind t k).
Proof.
  intros Ht Hk c. unfold bind.
  destruct (Ht c) as (n1 & E1 & H1). destruct (t c) as [c1 [a|e]]; simpl in *.
  - destruct (Hk a c1) as (n2 & E2 & H2). exists (n1 ++ n2).
    rewrite E2, E1, forallb_app, H1, H2. by rewrite app_assoc.
  - by exists n1.
Qed.

Lemma emits_invalid (P : TxOp -> bool) {B} (X : Collaborators) (m : Model)
  (e : Error) (k : unit -> Tx B) :
  validation X m = Throw e -> emits P (bind (throwIfInvalid X m) k).
Proof.
  intros H c. unfold bind. rewrite throwIfInvalid_ctx, H.
  exists []. by rewrite app_nil_r.
Qed.

Lemma emits_throwIfInvalid (P : TxOp -> bool) (X : Collaborators) (m : Model) :
  emits P (throwIfInvalid X m).
Proof.
  intros c. rewrite throwIfInvalid_ctx. exists []. by rewrite app_nil_r.
Qed.

Lemma emits_get (P : TxOp -> bool) (d : Db) (ref : DocRef)
  (st : TransactionState) (noData : bool) :
  P (TxGet ref) = true -> emits P (getTransaction d ref st noData).
Proof.
  intros H. unfold getTransaction.
  apply emits_bind; [by apply emits_issue|intros _; apply emits_ret].
Qed.

Lemma emits_query (P : TxOp -> bool) (X : Collaborators) (d : Db)
  (collection : string) (clauses : list Clause) (st : TransactionState) :
  P (TxQuery collection clauses) = true ->
  emits P (queryTransaction X d collection clauses st).
Proof.
  intros H. unfold queryTransaction.
  apply emits_bind; [by apply emits_issue|intros _].
  destruct (queryFirst X d collection clauses) as [[ref o]|]; apply emits_ret.
Qed.

Lemma refEqb_refl (ref : DocRef) : refEqb ref ref = true.
Proof. unfold refEqb. by rewrite !String.eqb_refl. Qed.

Lemma emits_mirror (X : Collaborators) (m : Model) (u : MirrorUpdates)
  (P : TxOp -> bool) :
  (forall op, mirrorOp m op = true -> P op = true) ->
  emits P (mirrorTransaction X m u).
Proof.
  intros HP c.
  assert (Hnil : forall c' : TxCtx, txOps c' = txOps c ->
    exists new, txOps c' = txOps c ++ new /\ forallb P new = true).
  { intros c' E. exists []. by rewrite app_nil_r. }
  unfold mirrorTransaction.
  destruct (canMirror m); [|by apply Hnil].
  destruct (sMirror (schema m)) as [rule|] eqn:Hrule; [|by apply Hnil].
  assert (Hw : forall id payload,
    P (TxSet (mrCollection rule, id) payload true) = true
    /\ P (TxUpdate (mrCollection rule, id) payload) = true).
  { intros id payload. split; apply HP; unfold mirrorOp;
      rewrite Hrule; simpl; by rewrite String.eqb_refl. }
  simpl. destruct (truthy (mirrorIdOf m rule)); simpl; [|by apply Hnil].
  destruct (mirrorIdOf m rule) as [| |b|n|s0| | |o]; tx_simpl;
    try (by apply Hnil).
  destruct u as [updates|]; simpl.
  - destruct (JS.isEmpty (buildMirrorData updates (mrFields rule))); simpl;
      [by apply Hnil|].
    destruct (JS.includesDot (mrName rule)); simpl.
    + eexists [_; _]. rewrite <- app_assoc. split; [reflexivity|]. simpl.
      by rewrite (proj1 (Hw _ _)), (proj2 (Hw _ _)).
    + eexists [_]. split; [reflexivity|]. simpl. by rewrite (proj1 (Hw _ _)).
  - eexists [_]. split; [reflexivity|]. simpl. by rewrite (proj1 (Hw _ _)).
Qed.

Ltac emits_auto :=
  repeat first
    [ apply emits_ret
    | apply emits_throw
    | apply emits_throwIfInvalid
    | (apply emits_get; simpl; rewrite ?refEqb_refl; reflexivity)
    | (apply emits_query; simpl; rewrite ?String.eqb_refl; reflexivity)
    | (apply emits_issue; simpl; rewrite ?refEqb_refl; reflexivity)
    | (apply emits_mirror; intros ? ->; simpl; apply orb_true_r)
    | (apply emits_bind; [|intros ?])
    | match goal with
      | |- emits _ (if ?b then _ else _) => destruct b
      | |- emits _ (match ?x with _ => _ end) => destruct x
      end ].

(** X8. A transaction attempt touches only the model's own document and
    documents of the mirror collection: it reads its own document and
    queries its own collection, it creates, sets, updates and deletes
    its own document, and any other write is a merge write to the mirror
    collection. *)
Theorem attempt_stays_in_frame (X : Collaborators) (alwaysGet : option bool)
  (m : Model) (d : Db) :
  forallb (inFrame m) (txOps (fst (attempt X alwaysGet m d (mkCtx [] []))))
  = true.
Proof.
  assert (H : emits (inFrame m) (attempt X alwaysGet m d)).
  { unfold attempt, createTransaction, updateTransaction, deleteTransaction,
      inFrame.
    cbv zeta. emits_auto. }
  destruct (H (mkCtx [] [])) as (new & -> & Hnew). exact Hnew.
Qed.

Ltac emits_reads e :=
  repeat first
    [ apply emits_ret
    | apply emits_throw
    | (apply emits_invalid with e; assumption)
    | (apply emits_get; reflexivity)
    | (apply emits_query; reflexivity)
    | (apply emits_bind; [|intros ?])
    | match goal with
      | |- emits _ (if ?b then _ else _) => destruct b
      | |- emits _ (match ?x with _ => _ end) => destruct x
      end ].

(** X9. When the model's data do not validate and no Delete is queued,
    a transaction attempt issues no write at all: whatever the log
    holds, only reads reach the transaction. *)
Theorem invalid_data_is_never_written (X : Collaborators)
  (alwaysGet : option bool) (m : Model) (d : Db) (e : Error) :
  validation X m = Throw e ->
  actionsContainDelete (actions m) = false ->
  forallb isRead (txOps (fst (attempt X alwaysGet m d (mkCtx [] [])))) = true.
Proof.
  intros Hval Hdel.
  assert (H : emits isRead (attempt X alwaysGet m d)).
  { unfold attempt. rewrite Hdel. cbv zeta. emits_reads e. }
  destruct (H (mkCtx [] [])) as (new & -> & Hnew). exact Hnew.
Qed.

Lemma invalid_data_is_never_written_witness :
  let m := update [("name", VNum 3)] (Sample.fresh Sample.strictSchema []) in
  forallb isRead
    (txOps (fst (attempt Sample.collaborators (Some true) m (db Sample.host)
                   (mkCtx [] [])))) = true.
Proof.
  exact (invalid_data_is_never_written Sample.collaborators (Some true)
           (update [("name", VNum 3)] (Sample.fresh Sample.strictSchema []))
           (db Sample.host) (SchemaFireValidationError ["name"%string])
           eq_refl eq_refl).
Defined.

(** ** The delete branch, in full *)

Lemma forallb_merge_or (ref : DocRef) (ops : list TxOp) :
  forallb isMergeWrite ops = true ->
  forallb (fun op => isGetOf ref op || isMergeWrite op) ops = true.
Proof.
  induction ops as [|op ops IH]; simpl; auto.
  intros H. apply andb_prop in H as [-> H]. rewrite orb_true_r. by apply IH.
Qed.

(** The shape of an attempt whose log holds a Delete. *)
Lemma attempt_delete_shape (X : Collaborators) (alwaysGet : option bool)
  (m : Model) (d : Db) :
  actionsContainDelete (actions m) = true ->
  exists pre lg,
    forallb (fun op => isGetOf (doc m) op || isMergeWrite op) pre = true
    /\ (attempt X alwaysGet m d (mkCtx [] []) = (mkCtx pre lg, Throw HostError)
        \/ exists raw g sync,
            attempt X alwaysGet m d (mkCtx [] [])
            = (mkCtx (pre ++ [TxDelete (doc m)]) lg,
               Ok (mkState raw [] (mkRan g false false false true false) []
                     (Some Deleted) sync))
            /\ match sync with
               | Some r => recDoc r = doc m
               | None => True
               end).
Proof.
  intros Hdel. unfold attempt. rewrite Hdel.
  unfold createTransactionState, getTransaction, deleteTransaction.
  set (needsRead := match getIdFieldFromSchema (schema m) with
                    | Some idField =>
                        JS.nonEmpty idField
                        && negb (truthy (JS.get (rawData m) idField))
                    | None => false
                    end).
  assert (Hread : (match getIdFieldFromSchema (schema m) with
                   | Some idField =>
                       if JS.nonEmpty idField
                          && negb (truthy (JS.get (rawData m) idField))
                       then getTransaction d (doc m)
                              (createTransactionState (rawData m) (actions m))
                              false
                       else ret (createTransactionState (rawData m) (actions m))
                   | None => ret (createTransactionState (rawData m) (actions m))
                   end)
                  = if needsRead
                    then getTransaction d (doc m)
                           (createTransactionState (rawData m) (actions m)) false
                    else ret (createTransactionState (rawData m) (actions m))).
  { unfold needsRead. by destruct (getIdFieldFromSchema (schema m)). }
  unfold createTransactionState, getTransaction in Hread. rewrite Hread.
  clear Hread. destruct needsRead; tx_simpl.
  - destruct (mirror_frame X m MirrorDelete
                (mkCtx [TxGet (doc m)] [])) as (new & lg & out & -> & Hm & [->| ->]);
      simpl; exists (TxGet (doc m) :: new), lg; simpl;
      rewrite refEqb_refl; simpl;
      (split; [apply forallb_merge_or; exact Hm|]); [right|left; reflexivity].
    eexists _, _, _. split; [reflexivity|]. reflexivity.
  - destruct (mirror_frame X m MirrorDelete
                (mkCtx [] [])) as (new & lg & out & -> & Hm & [->| ->]);
      simpl; exists new, lg;
      (split; [apply forallb_merge_or; exact Hm|]); [right|left; reflexivity].
    eexists _, _, _. split; [reflexivity|]. exact I.
Qed.





(** ** Runs that resolve *)

Lemma commit_app (d : Db) (ops1 ops2 : list TxOp) :
  commit d (ops1 ++ ops2)
  = match commit d ops1 with
    | Some d1 => commit d1 ops2
    | None => None
    end.
Proof.
  revert d. induction ops1 as [|op ops1 IH]; intros d; simpl; [reflexivity|].
  destruct (applyWrite d op); [apply IH|reflexivity].
Qed.

Lemma containsDelete_nonEmpty (l : list Action) :
  actionsContainDelete l = true -> JS.isEmpty l = false.
Proof. by destruct l. Qed.

(** X12. When a Delete is queued and the run resolves, the document is
    gone from the database, the local view is empty, the log is empty,
    the model no longer exists by creation and counts as having run. *)
Theorem run_delete_resolved (X : Collaborators) (config : RunConfig)
  (m : Model) (h h' : Host) (m' : Model) :
  actionsContainDelete (actions m) = true ->
  run X config m h = (h', m', Ok tt) ->
  db h' !! doc m = None
  /\ rawData m' = []
  /\ actions m' = []
  /\ existsViaCreation m' = false
  /\ hasRunSuccessfully m' = true
  /\ doc m' = doc m.
Proof.
  intros Hdel. unfold run, runTry, buildTransaction. simpl actions.
  rewrite (containsDelete_nonEmpty _ Hdel). simpl andb. cbv iota.
  unfold runTransaction.
  destruct (attempt_delete_shape X (forceGet config)
              (setCurrentConfig (Some config) m) (db h) Hdel)
    as (pre & lg & Hpre & [-> | (raw & g & sync & -> & Hsync)]).
  - discriminate.
  - simpl txOps. rewrite commit_app.
    destruct (commit (db h) pre) as [d1|]; [|discriminate].
    simpl commit. cbv iota beta.
    unfold updateModelWithTransactionState, manageLastRunStatus,
      forceGetIfNeeded. simpl.
    destruct sync as [r|]; simpl in *.
    + rewrite andb_false_r. intros [= <- <-]. simpl.
      rewrite Hsync. repeat split. apply lookup_delete_eq.
    + rewrite andb_false_r. intros [= <- <-]. simpl.
      repeat split. apply lookup_delete_eq.
Qed.

Lemma run_delete_resolved_witness :
  let m := fst (delete Sample.collaborators None
                  (Sample.fresh Sample.plainSchema Sample.stored)) in
  let r := run Sample.collaborators emptyConfig m Sample.host in
  db (fst (fst r)) !! doc m = None
  /\ rawData (snd (fst r)) = []
  /\ actions (snd (fst r)) = []
  /\ existsViaCreation (snd (fst r)) = false
  /\ hasRunSuccessfully (snd (fst r)) = true
  /\ doc (snd (fst r)) = doc m.
Proof.
  intros m r.
  apply (run_delete_resolved Sample.collaborators emptyConfig m Sample.host
           (fst (fst r)) (snd (fst r)) eq_refl).
  vm_compute. reflexivity.
Defined.

Lemma containsCreate_nonEmpty (l : list Action) :
  actionsContainCreate l = true -> JS.isEmpty l = false.
Proof. by destruct l. Qed.

Lemma mirror_inactive (X : Collaborators) (m : Model) (u : MirrorUpdates)
  (c : TxCtx) :
  canMirror m = false -> mirrorTransaction X m u c = (c, Ok tt).
Proof. intros H. unfold mirrorTransaction. by rewrite H. Qed.

(** X13. A run over a queued Create, with no Delete, Query, Callback or
    FindOrCreate in the log and mirroring inactive, that resolves has
    replaced whatever was stored: the document holds exactly the folded
    creation data, the model exists by creation, counts as having run and
    has an empty log. With [forceGet] the document is read again after
    the transaction, and the local view is the stored data. *)
Theorem run_create_resolved (X : Collaborators) (config : RunConfig)
  (m : Model) (h h' : Host) (m' : Model) :
  actionsContainCreate (actions m) = true ->
  actionsContainDelete (actions m) = false ->
  findQueryAction (actions m) = None ->
  actionsContainCallback (actions m) = false ->
  actionsContainFindOrCreate (actions m) = false ->
  canMirror (setCurrentConfig (Some config) m) = false ->
  run X config m h = (h', m', Ok tt) ->
  let data := buildUpdatedData true (rawData m) (actions m) in
  db h' !! doc m = Some data
  /\ existsViaCreation m' = true
  /\ hasRunSuccessfully m' = true
  /\ actions m' = []
  /\ if optTrue (forceGet config)
     then rawData m' = data
          /\ exists evs, io h' = evs ++ [IORead (doc m)]
     else io h' = io h ++ [IOTransaction
                             ((if actionsContainFind (actions m)
                               then [TxGet (doc m)] else [])
                              ++ [TxSet (doc m) data false]) true].
Proof.
  intros Hcr Hdel Hq Hcb Hfoc Hmir. intros Hrun data. revert Hrun.
  unfold run, runTry, buildTransaction.
  remember (setCurrentConfig (Some config) m) as m0 eqn:Hm0.
  assert (Ha : actions m0 = actions m) by (by subst).
  assert (Hr : rawData m0 = rawData m) by (by subst).
  assert (Hd : doc m0 = doc m) by (by subst).
  rewrite Ha, (containsCreate_nonEmpty _ Hcr). simpl andb. cbv iota.
  unfold runTransaction, attempt.
  rewrite Ha, Hr, Hd, Hdel, Hq, Hcb, Hfoc, Hcr.
  unfold createTransactionState, getTransaction, createTransaction.
  destruct (actionsContainFind (actions m)); tx_simpl;
    rewrite ?app_nil_r; fold data;
    rewrite throwIfInvalid_ctx; destruct (validation X m0) as [[]|e];
    simpl; try discriminate;
    rewrite mirror_inactive by assumption; simpl.
  all: unfold forceGetIfNeeded, updateModelWithTransactionState,
         manageLastRunStatus, getSnap, getRecord, syncData; simpl.
  all: subst m0; simpl.
  all: destruct (optTrue (forceGet config)); simpl;
         rewrite ?lookup_insert_eq; intros [= <- <-]; simpl;
         rewrite ?lookup_insert_eq; repeat split; eauto.
Qed.

Lemma run_create_resolved_witness :
  let m := create [("a", VNum 1)] true (Sample.fresh Sample.plainSchema []) in
  let config := mkConfig None (Some true) None None in
  let r := run Sample.collaborators config m Sample.host in
  db (fst (fst r)) !! doc m = Some [("a", VNum 1)]
  /\ existsViaCreation (snd (fst r)) = true
  /\ hasRunSuccessfully (snd (fst r)) = true
  /\ actions (snd (fst r)) = []
  /\ rawData (snd (fst r)) = [("a", VNum 1)]
     /\ exists evs, io (fst (fst r)) = evs ++ [IORead (doc m)].
Proof.
  intros m config r.
  apply (run_create_resolved Sample.collaborators config m Sample.host
           (fst (fst r)) (snd (fst r))
           eq_refl eq_refl eq_refl eq_refl eq_refl eq_refl).
  vm_compute. reflexivity.
Defined.

(** X14. A run with [forceGet] over an empty log runs a transaction that
    only reads the model's document: the database is unchanged, the
    local view becomes the stored data when the document exists and is
    kept when it does not, the snapshot is the one just read, and the
    run counts as successful. *)
Theorem run_forceGet_on_empty_log (X : Collaborators) (config : RunConfig)
  (m : Model) (h : Host) :
  actions m = [] ->
  optTrue (forceGet config) = true ->
  exists h' m',
    run X config m h = (h', m', Ok tt)
    /\ db h' = db h
    /\ io h' = io h ++ [IOTransaction [TxGet (doc m)] true]
    /\ rawData m' = match db h !! doc m with
                    | Some o => o
                    | None => rawData m
                    end
    /\ snap m' = Some (mkSnapshot (doc m) (isSome (db h !! doc m))
                         (db h !! doc m))
    /\ hasRunSuccessfully m' = true
    /\ existsViaCreation m' = false.
Proof.
  intros Hact Hget.
  unfold run, runTry, buildTransaction.
  remember (setCurrentConfig (Some config) m) as m0 eqn:Hm0.
  assert (Ha : actions m0 = []) by (by subst).
  assert (Hr : rawData m0 = rawData m) by (by subst).
  assert (Hd : doc m0 = doc m) by (by subst).
  rewrite Ha, Hget. simpl andb. cbv iota.
  unfold runTransaction, attempt. rewrite Ha, Hr, Hd, Hget.
  unfold actionsContainDelete, actionsContainCallback, actionsContainFind,
    actionsContainFindOrCreate, actionsContainCreate, findQueryAction,
    buildUpdatedData, createTransactionState, getTransaction.
  tx_simpl.
  unfold forceGetIfNeeded, updateModelWithTransactionState,
    manageLastRunStatus, syncData. simpl.
  subst m0. rewrite andb_false_r.
  destruct (db h !! doc m); simpl;
    (eexists _, _; split; [reflexivity|]); repeat split.
Qed.

Lemma run_forceGet_on_empty_log_witness :
  let m := Sample.fresh Sample.plainSchema [] in
  let config := mkConfig None (Some true) None None in
  exists h' m',
    run Sample.collaborators config m Sample.host = (h', m', Ok tt)
    /\ db h' = db Sample.host
    /\ io h' = io Sample.host ++ [IOTransaction [TxGet (doc m)] true]
    /\ rawData m' = match db Sample.host !! doc m with
                    | Some o => o
                    | None => rawData m
                    end
    /\ snap m' = Some (mkSnapshot (doc m) (isSome (db Sample.host !! doc m))
                         (db Sample.host !! doc m))
    /\ hasRunSuccessfully m' = true
    /\ existsViaCreation m' = false.
Proof.
  exact (run_forceGet_on_empty_log Sample.collaborators
           (mkConfig None (Some true) None None)
           (Sample.fresh Sample.plainSchema []) Sample.host eq_refl eq_refl).
Defined.

(** X15. A run that resolves leaves an empty log and the transient
    fields at rest. When it ran a transaction the model counts as having
    run successfully; when there was nothing to process (an empty log
    and no [forceGet]) the rest of the model is as it was, so that such
    a run does not count as a successful one. *)
Theorem run_resolved_marks_success (X : Collaborators) (config : RunConfig)
  (m : Model) (h : Host) :
  let '(_, m', out) := run X config m h in
  match out with
  | Ok _ =>
      actions m' = []
      /\ idle m'
      /\ if JS.isEmpty (actions m) && negb (optTrue (forceGet config))
         then sameLocalState m m'
         else hasRunSuccessfully m' = true
  | Throw _ => True
  end.
Proof.
  unfold run, runTry, buildTransaction. simpl actions.
  destruct (JS.isEmpty (actions m) && negb (optTrue (forceGet config))) eqn:E.
  - simpl. split; [|split; [apply runFinally_idle|by repeat split]].
    apply andb_prop in E as [E _]. by destruct (actions m).
  - destruct (runTransaction _ h) as [h1 [st|e]]; [|exact I].
    destruct (errors _) as [|e0 es]; [|exact I].
    destruct (forceGetIfNeeded config _ h1) as [h2 m2].
    split; [reflexivity|]. split; [apply runFinally_idle|reflexivity].
Qed.

Lemma second_run_is_silent_witness :
  let m := update [("b", VNum 9)] (Sample.fresh Sample.plainSchema []) in
  let '(h1, m1, out1) := run Sample.collaborators emptyConfig m Sample.host in
  match out1 with
  | Ok _ =>
      run Sample.collaborators emptyConfig m1 h1
      = (hostLog LogNoDataToProcess h1, m1, Ok tt)
  | Throw _ => True
  end.
Proof.
  exact (second_run_is_silent Sample.collaborators emptyConfig emptyConfig
           (update [("b", VNum 9)] (Sample.fresh Sample.plainSchema []))
           Sample.host eq_refl).
Defined.

(** ** Validation *)

Lemma decode_nil (props : list (string * (value -> bool))) (data : Obj) :
  decode props data = []
  <-> forall k t, In (k, t) props -> t (JS.get data k) = true.
Proof.
  unfold decode. induction props as [|[k0 t0] props IH]; simpl.
  - split; [intros _ k t []|reflexivity].
  - destruct (t0 (JS.get data k0)) eqn:E; simpl.
    + rewrite IH. split.
      * intros H k t [[= <- <-]|Hin]; [exact E|by apply H].
      * intros H k t Hin. apply H. by right.
    + split; [discriminate|].
      intros H. specialize (H k0 t0 (or_introl eq_refl)). congruence.
Qed.

Lemma In_set {A} (o : list (string * A)) (k k' : string) (v v' : A) :
  In (k, v) (JS.set o k' v') -> (k, v) = (k', v') \/ In (k, v) o.
Proof.
  induction o as [|[k0 v0] o IH]; simpl.
  - intros [[= <- <-]|[]]. by left.
  - destruct (String.eqb_spec k0 k') as [->|Hne]; simpl.
    + intros [[= <- <-]|H]; [by left|right; by right].
    + intros [H|H]; [right; by left|].
      destruct (IH H) as [E|Hin]; [by left|right; by right].
Qed.

Lemma In_pick {A} (ks : list string) (o : list (string * A)) (k : string)
  (v : A) :
  In (k, v) (JS.pick ks o) -> In k ks /\ JS.lookup o k = Some v.
Proof.
  unfold JS.pick.
  assert (H : forall acc,
    In (k, v) (fold_left
                 (fun acc k => match JS.lookup o k with
                               | Some v => JS.set acc k v
                               | None => acc
                               end) ks acc)
    -> In (k, v) acc \/ (In k ks /\ JS.lookup o k = Some v)).
  { induction ks as [|k0 ks IH]; intros acc Hin; simpl in *; [by left|].
    destruct (IH _ Hin) as [Hacc|[Hk Hl]]; [|right; auto].
    destruct (JS.lookup o k0) as [v0|] eqn:E; [|by left].
    destruct (In_set _ _ _ _ _ Hacc) as [[= -> ->]|Hacc']; [right; auto|by left]. }
  intros Hin. by destruct (H [] Hin) as [[]|].
Qed.

Lemma lookup_In {A} (o : list (string * A)) (k : string) (v : A) :
  JS.lookup o k = Some v -> In (k, v) o.
Proof.
  induction o as [|[k0 v0] o IH]; simpl; [discriminate|].
  destruct (String.eqb_spec k0 k) as [->|Hne].
  - intros [= ->]. by left.
  - intros H. right. by apply IH.
Qed.

Lemma lookup_pick {A} (ks : list string) (o : list (string * A)) (k : string) :
  In k ks -> JS.lookup (JS.pick ks o) k = JS.lookup o k.
Proof.
  intros Hin. unfold JS.pick. rewrite lookup_pick_from.
  rewrite (proj2 (existsb_eqb_In k ks) Hin). simpl.
  by destruct (JS.lookup o k).
Qed.

(** X17. With Update actions and no Create or FindOrCreate in the log,
    validation looks only at the fields being updated: it passes exactly
    when every updated field that the codec has a prop for decodes. A
    field that is not being updated cannot fail it, whether it is
    missing or invalid. *)
Theorem validate_partial_update (X : Collaborators) (m : Model) :
  actionsContainCreate (actions m) = false ->
  actionsContainFindOrCreate (actions m) = false ->
  actionsContainUpdate (actions m) = true ->
  validate X m = None
  <-> forall k t,
        In k (JS.keys (buildUpdatedData false (rawData m) (actions m))) ->
        JS.lookup (sCodecProps (schema m)) k = Some t ->
        t (JS.get (omitBaseFields X (rawData m)) k) = true.
Proof.
  intros Hcr Hfoc Hup. unfold validate. rewrite Hcr, Hfoc, Hup. simpl.
  set (uk := JS.keys (buildUpdatedData false (rawData m) (actions m))).
  set (data := omitBaseFields X (rawData m)).
  set (props := sCodecProps (schema m)).
  assert (Hfold : forall l, foldReport l = None <-> l = []).
  { intros [|x l]; simpl; split; congruence. }
  rewrite Hfold, decode_nil. split.
  - intros H k t Hk Hl.
    assert (Hin : In (k, t) (JS.pick uk props)).
    { apply lookup_In. by rewrite lookup_pick. }
    specialize (H k t Hin). unfold JS.get in *.
    by rewrite lookup_pick in H.
  - intros H k t Hin. apply In_pick in Hin as [Hk Hl].
    unfold JS.get. rewrite lookup_pick by assumption. by apply H.
Qed.

Lemma validate_partial_update_witness :
  validate Sample.collaborators
    (update [("age", VNum 3)] (Sample.fresh Sample.strictSchema [])) = None.
Proof.
  apply (validate_partial_update Sample.collaborators
           (update [("age", VNum 3)] (Sample.fresh Sample.strictSchema []))
           eq_refl eq_refl eq_refl).
  intros k t [<-|[]]. discriminate.
Defined.

(** ** The constructor's document *)

Lemma setup_keeps_document (X : Collaborators) (t : option ModelActionType)
  (data : option Obj) (callback : option (Obj -> list Action))
  (clauses : option (list Clause)) (m m' : Model) :
  setupInitialActions X t data callback clauses m = Ok m' ->
  doc m' = doc m /\ modelId m' = modelId m /\ snap m' = snap m.
Proof.
  unfold setupInitialActions.
  destruct t as [ty|].
  - destruct (negb (createTypeHasData ty data)); [discriminate|].
    destruct ty, callback, clauses as [[|c cs]|];
      try discriminate; intros [= <-]; by repeat split.
  - destruct callback; intros [= <-]; by repeat split.
Qed.

(** X18. The document of a constructed model is the reference passed;
    failing that the snapshot's; failing that the document of the
    schema's collection named by the id passed; failing that a document
    with a fresh id. The model's id is the id passed and otherwise the
    id of that document. *)
Theorem newModel_document (X : Collaborators) (p : ModelParams) (m : Model) :
  newModel X p = Ok m ->
  let idGiven := match pId p with
                 | Some i => if JS.nonEmpty i then Some i else None
                 | None => None
                 end in
  doc m = match pDoc p, pSnap p, idGiven with
          | Some ref, _, _ => ref
          | None, Some sn, _ => snapRef sn
          | None, None, Some i => (sRef (pSchema p), i)
          | None, None, None => (sRef (pSchema p), autoId X)
          end
  /\ modelId m = match idGiven with
                 | Some i => i
                 | None => snd (doc m)
                 end
  /\ snap m = pSnap p.
Proof.
  unfold newModel.
  destruct (setupInitialActions X (pType p) (pData p) (pCallback p)
              (pClauses p) _) as [m1|e] eqn:E; [|discriminate].
  intros [= <-]. apply setup_keeps_document in E as (Hd & Hi & Hs).
  simpl in *. rewrite Hd, Hi, Hs. unfold getDoc.
  destruct (pDoc p) as [ref|], (pSnap p) as [sn|], (pId p) as [i|];
    simpl; try destruct (JS.nonEmpty i); by repeat split.
Qed.

Lemma newModel_document_witness :
  let m := Sample.fresh Sample.plainSchema Sample.stored in
  doc m = ("users"%string, "u1"%string)
  /\ modelId m = "u1"%string
  /\ snap m = None.
Proof.
  exact (newModel_document Sample.collaborators
           (mkParams Sample.plainSchema (Some Sample.stored) None
              (Some "u1"%string) None None None None)
           (Sample.fresh Sample.plainSchema Sample.stored) eq_refl).
Defined.

(** ** The create branches *)

(** X19. When a FindOrCreate is queued (and no Delete, Query or
    Callback), the document is missing and the data validate, the
    attempt creates the document with the folded creation data, without
    overwrite semantics, and returns at once: neither the forced create
    of a Create queued alongside nor the update step is reached. *)
Theorem findOrCreate_on_missing_document (X : Collaborators)
  (alwaysGet : option bool) (m : Model) (d : Db) :
  actionsContainFindOrCreate (actions m) = true ->
  actionsContainDelete (actions m) = false ->
  findQueryAction (actions m) = None ->
  actionsContainCallback (actions m) = false ->
  d !! doc m = None ->
  validation X m = Ok tt ->
  canMirror m = false ->
  let data := buildUpdatedData true (rawData m) (actions m) in
  exists st,
    attempt X alwaysGet m d (mkCtx [] [])
    = (mkCtx ((if actionsContainFind (actions m) then [TxGet (doc m)] else [])
              ++ [TxGet (doc m); TxCreate (doc m) data]) [], Ok st)
    /\ stLastRunStatus st = Some Created
    /\ ranCreate (stActionsRun st) = true
    /\ ranForceCreate (stActionsRun st) = false
    /\ ranUpdate (stActionsRun st) = false.
Proof.
  intros Hfoc Hdel Hq Hcb Hd Hval Hmir data.
  unfold attempt. rewrite Hdel, Hq, Hcb, Hfoc.
  unfold createTransactionState, getTransaction, createTransaction.
  assert (Hd' : @lookup _ Obj _ _ (doc m) d = None) by exact Hd.
  rewrite !Hd'.
  destruct (actionsContainFind (actions m)); tx_simpl;
    rewrite ?app_nil_r; fold data;
    rewrite throwIfInvalid_ctx, Hval; simpl;
    rewrite mirror_inactive by assumption; simpl;
    eexists; repeat split.
Qed.

Lemma findOrCreate_on_missing_document_witness :
  let m := create [("a", VNum 1)] true
             (create [("a", VNum 2)] false (Sample.fresh Sample.plainSchema [])) in
  exists st,
    attempt Sample.collaborators None m ∅ (mkCtx [] [])
    = (mkCtx [TxGet (doc m); TxCreate (doc m) [("a", VNum 1)]] [], Ok st)
    /\ stLastRunStatus st = Some Created
    /\ ranCreate (stActionsRun st) = true
    /\ ranForceCreate (stActionsRun st) = false
    /\ ranUpdate (stActionsRun st) = false.
Proof.
  exact (findOrCreate_on_missing_document Sample.collaborators None
           (create [("a", VNum 1)] true
              (create [("a", VNum 2)] false
                 (Sample.fresh Sample.plainSchema [])))
           ∅ eq_refl eq_refl eq_refl eq_refl eq_refl eq_refl eq_refl).
Defined.

(** X20. A run over a queued Create (with no Delete, Query, Callback or
    FindOrCreate in the log) whose data do not validate rejects with the
    validation error: the transaction is not committed and holds no
    write, the database is unchanged, and the model keeps its log and
    its local view, with only the transient fields reset. *)
Theorem run_create_invalid_rejects (X : Collaborators) (config : RunConfig)
  (m : Model) (h : Host) (e : Error) :
  actionsContainCreate (actions m) = true ->
  actionsContainDelete (actions m) = false ->
  findQueryAction (actions m) = None ->
  actionsContainCallback (actions m) = false ->
  actionsContainFindOrCreate (actions m) = false ->
  validation X (setCurrentConfig (Some config) m) = Throw e ->
  exists h' m',
    run X config m h = (h', m', Throw e)
    /\ db h' = db h
    /\ io h' = io h ++ [IOTransaction
                          (if actionsContainFind (actions m)
                           then [TxGet (doc m)] else []) false]
    /\ sameLocalState m m'
    /\ idle m'.
Proof.
  intros Hcr Hdel Hq Hcb Hfoc Hval.
  unfold run, runTry, buildTransaction.
  remember (setCurrentConfig (Some config) m) as m0 eqn:Hm0.
  assert (Ha : actions m0 = actions m) by (by subst).
  assert (Hr : rawData m0 = rawData m) by (by subst).
  assert (Hd : doc m0 = doc m) by (by subst).
  rewrite Ha, (containsCreate_nonEmpty _ Hcr). simpl andb. cbv iota.
  unfold runTransaction, attempt.
  rewrite Ha, Hr, Hd, Hdel, Hq, Hcb, Hfoc, Hcr.
  unfold createTransactionState, getTransaction.
  destruct (actionsContainFind (actions m)); tx_simpl;
    rewrite throwIfInvalid_ctx, Hval; simpl;
    (eexists _, _; split; [reflexivity|]); simpl;
    subst m0; repeat split; apply runFinally_idle.
Qed.

Lemma run_create_invalid_rejects_witness :
  let m := create [("name", VNum 3)] true
             (Sample.fresh Sample.strictSchema []) in
  exists h' m',
    run Sample.collaborators emptyConfig m Sample.host
    = (h', m', Throw (SchemaFireValidationError ["name"%string]))
    /\ db h' = db Sample.host
    /\ io h' = io Sample.host ++ [IOTransaction [] false]
    /\ sameLocalState m m'
    /\ idle m'.
Proof.
  exact (run_create_invalid_rejects Sample.collaborators emptyConfig
           (create [("name", VNum 3)] true
              (Sample.fresh Sample.strictSchema []))
           Sample.host (SchemaFireValidationError ["name"%string])
           eq_refl eq_refl eq_refl eq_refl eq_refl eq_refl).
Defined.
